(** * LelandStocksDiscordBot: the snapshot aggregation, the leaderboard query
      and the user lookup of [src/bot.py], embedded and verified.

    The embedding follows [bot.py] function by function:
    - [calculate_daily_performance] (the loop over [current_data], the two
      [sorted] calls and the returned dictionary),
    - [get_user_info] (the pandas lookup helper, which assigns to a column of
      the frame it is given),
    - the body of the [leaderboard] command up to the text it accumulates.

    Python floats are IEEE 754 binary64 numbers; they are modelled by
    [spec_float] with the operations of [SpecFloat] at precision 53 and
    maximal exponent 1024.  Exceptions are modelled by an error monad. *)

From Stdlib Require Import ZArith List String Ascii Bool Lia Sorted Permutation.
From Stdlib Require Import SpecFloat.
From stdpp Require Import base option list strings pretty gmap sets.

Local Open Scope Z_scope.

(** ** Python floats *)

Module PyFloat.

Definition float : Type := spec_float.

Definition prec : Z := 53.
Definition emax : Z := 1024.

Definition sub : float -> float -> float := SFsub prec emax.
Definition mul : float -> float -> float := SFmul prec emax.
Definition div : float -> float -> float := SFdiv prec emax.
Definition ltb : float -> float -> bool := SFltb.

(** [float(n)] for an integer that fits: the nearest binary64 number, ties
    to even. *)
Definition of_Z (z : Z) : float := binary_normalize prec emax z 0 false.

Definition zero : float := S754_zero false.
Definition nan : float := S754_nan.
Definition hundred : float := Eval vm_compute in of_Z 100.

Definition is_zero (x : float) : bool :=
  match x with S754_zero _ => true | _ => false end.

Definition is_nan (x : float) : bool :=
  match x with S754_nan => true | _ => false end.

Definition is_inf (x : float) : bool :=
  match x with S754_infinity _ => true | _ => false end.

(** Neither infinite nor NaN. *)
Definition is_finite (x : float) : bool :=
  match x with S754_zero _ | S754_finite _ _ _ => true | _ => false end.

End PyFloat.

Abbreviation float := PyFloat.float.

(** ** Exceptions *)

Inductive PyExc : Type :=
  | ValueError
  | TypeError
  | OverflowError
  | ZeroDivisionError
  | KeyError
  | IndexError.

Inductive Result (A : Type) : Type :=
  | Ok (a : A)
  | Raise (e : PyExc).
Arguments Ok {A} a.
Arguments Raise {A} e.

#[export] Instance result_ret : MRet Result := fun _ a => Ok a.
#[export] Instance result_bind : MBind Result := fun _ _ f m =>
  match m with
  | Ok a => f a
  | Raise e => Raise e
  end.

Definition raises {A} (m : Result A) : Prop := exists e, m = Raise e.

(** The exceptions [float()] itself can raise on a balance field. *)
Definition is_conversion_error (e : PyExc) : bool :=
  match e with
  | ValueError | TypeError | OverflowError => true
  | _ => false
  end.

(** ** Data model: what [json.load] gives for a leaderboard file *)

(** A scalar JSON value, as the balance and the quantity fields hold them:
    [None], an [int], a [float] (the decoder also reads [NaN], [Infinity]
    and literals too large for a double, which it makes infinite) or a
    [str]. *)
Inductive JVal : Type :=
  | JNull
  | JInt (z : Z)
  | JFloat (f : float)
  | JStr (s : string).

(** One entry [[symbol, quantity, value]] of a user's holdings. *)
Record Holding : Type := mkHolding {
  symbol : string;          (* stock[0] *)
  quantity : JVal;          (* stock[1] *)
  valueLabel : string       (* stock[2] *)
}.

(** One value [[balance, profileLink, holdings]] of the snapshot dictionary. *)
Record UserRecord : Type := mkUser {
  balance : JVal;           (* data[username][0] *)
  profileLink : string;     (* data[username][1] *)
  holdings : list Holding   (* data[username][2] *)
}.

(** A snapshot is a Python dict: its keys in insertion order, first match on
    lookup. *)
Definition Snapshot : Type := list (string * UserRecord).

Definition keys (d : Snapshot) : list string := map fst d.

Fixpoint dict_get (d : Snapshot) (k : string) : option UserRecord :=
  match d with
  | [] => None
  | (k', v) :: d' => if String.eqb k' k then Some v else dict_get d' k
  end.

(** [username in d] *)
Definition dict_mem (d : Snapshot) (k : string) : bool :=
  match dict_get d k with Some _ => true | None => false end.

(** ** Builtins of Python and pandas that read or print text

    The conversions between text and numbers are not code of the bot.  They are
    taken as an interface; nothing below depends on what they answer. *)
Class PyBuiltins : Type := {
  (* float(s) on a string; None stands for ValueError *)
  float_of_str : string -> option float;
  (* what pd.to_numeric reads in a string cell; None when it cannot *)
  numeric_of_str : string -> option float;
  (* how an f-string prints a value *)
  format_value : JVal -> string
}.

Section Bot.

Context {builtins : PyBuiltins}.

(** [float(v)] *)
Definition py_float (v : JVal) : Result float :=
  match v with
  | JNull => Raise TypeError
  | JInt z =>
      let f := PyFloat.of_Z z in
      if PyFloat.is_inf f then Raise OverflowError else Ok f
  | JFloat f => Ok f
  | JStr s =>
      match float_of_str s with
      | Some f => Ok f
      | None => Raise ValueError
      end
  end.

(** [a / b] on floats *)
Definition py_truediv (a b : float) : Result float :=
  if PyFloat.is_zero b then Raise ZeroDivisionError else Ok (PyFloat.div a b).

(** [set(stock[0] for stock in holdings)] *)
Definition symbols (hs : list Holding) : gset string :=
  list_to_set (map symbol hs).

(** [s ^ t] on sets *)
Definition set_xor (s t : gset string) : gset string := (s ∖ t) ∪ (t ∖ s).

(** [sorted(l, key=..., reverse=True)]: a stable sort, greatest key first.
    [lt a b] is [key(a) < key(b)].  An element moves right past the strictly
    greater ones only, so elements with equal keys keep their order.  On keys
    that [<] orders totally this is the list Python's sort returns. *)
Section Sorted.
Context {A : Type} (lt : A -> A -> bool).

Fixpoint insert_desc (x : A) (l : list A) : list A :=
  match l with
  | [] => [x]
  | y :: l' => if lt x y then y :: insert_desc x l' else x :: y :: l'
  end.

Fixpoint sorted_reverse (l : list A) : list A :=
  match l with
  | [] => []
  | x :: l' => insert_desc x (sorted_reverse l')
  end.

End Sorted.

(** ** [calculate_daily_performance] *)

(** An entry of the [performance] list. *)
Record PerformanceRecord : Type := mkPerf {
  username : string;
  change_amount : float;
  change_percent : float;
  trades : nat
}.

(** The [biggest_gain] and [biggest_loss] dictionaries. *)
Record Extreme : Type := mkExtreme {
  ex_username : string;
  amount : float;
  percent : float
}.

(** [{"username": "", "amount": 0, "percent": 0}]; the integer 0 compares
    with a float as the float 0.0 does. *)
Definition sentinel : Extreme :=
  {| ex_username := ""; amount := PyFloat.zero; percent := PyFloat.zero |}.

Record DailySummary : Type := mkSummary {
  performance : list PerformanceRecord;
  total_trades : nat;
  biggest_gain : Extreme;
  biggest_loss : Extreme;
  most_active : list PerformanceRecord
}.

(** The local variables the loop updates. *)
Record LoopState : Type := mkState {
  st_performance : list PerformanceRecord;
  st_total_trades : nat;
  st_biggest_gain : Extreme;
  st_biggest_loss : Extreme
}.

Definition initial_state : LoopState :=
  {| st_performance := []; st_total_trades := 0%nat;
     st_biggest_gain := sentinel; st_biggest_loss := sentinel |}.

(** The body of [for username in current_data]. *)
Definition loop_body (previous_data current_data : Snapshot)
    (st : LoopState) (uname : string) : Result LoopState :=
  match dict_get previous_data uname with
  | None => Ok st
  | Some prev_rec =>
      match dict_get current_data uname with
      | None => Raise KeyError
      | Some curr_rec =>
          prev_money ← py_float (balance prev_rec);
          curr_money ← py_float (balance curr_rec);
          let trade_set :=
            set_xor (symbols (holdings curr_rec)) (symbols (holdings prev_rec)) in
          let trade_count := size trade_set in
          let total := (st_total_trades st + trade_count)%nat in
          let change := PyFloat.sub curr_money prev_money in
          quotient ← py_truediv change prev_money;
          let percent_change := PyFloat.mul quotient PyFloat.hundred in
          let gain :=
            if PyFloat.ltb (percent (st_biggest_gain st)) percent_change
            then {| ex_username := uname; amount := change;
                    percent := percent_change |}
            else st_biggest_gain st in
          let loss :=
            if PyFloat.ltb percent_change (percent (st_biggest_loss st))
            then {| ex_username := uname; amount := change;
                    percent := percent_change |}
            else st_biggest_loss st in
          Ok {| st_performance :=
                  st_performance st ++
                  [ {| username := uname; change_amount := change;
                       change_percent := percent_change;
                       trades := trade_count |} ];
                st_total_trades := total;
                st_biggest_gain := gain;
                st_biggest_loss := loss |}
      end
  end.

Fixpoint loop (previous_data current_data : Snapshot)
    (unames : list string) (st : LoopState) : Result LoopState :=
  match unames with
  | [] => Ok st
  | uname :: rest =>
      st' ← loop_body previous_data current_data st uname;
      loop previous_data current_data rest st'
  end.

Definition by_percent (a b : PerformanceRecord) : bool :=
  PyFloat.ltb (change_percent a) (change_percent b).

Definition by_trades (a b : PerformanceRecord) : bool :=
  Nat.ltb (trades a) (trades b).

Definition calculate_daily_performance (previous_data current_data : Snapshot)
    : Result DailySummary :=
  st ← loop previous_data current_data (keys current_data) initial_state;
  Ok {| performance := sorted_reverse by_percent (st_performance st);
        total_trades := st_total_trades st;
        biggest_gain := st_biggest_gain st;
        biggest_loss := st_biggest_loss st;
        most_active :=
          firstn 3 (sorted_reverse by_trades (st_performance st)) |}.

(** ** The pandas frame of the query commands

    [pd.DataFrame.from_dict(data, orient="index")], [reset_index] and the
    assignment of the four column names give one row per key of the file, in
    key order. *)

Record Row : Type := mkRow {
  account_name : string;        (* "Account Name" *)
  money : JVal;                 (* "Money In Account" *)
  link : string;                (* "Investopedia Link" *)
  stocks : list Holding         (* "Stocks Invested In" *)
}.

Definition DataFrame : Type := list Row.

Definition set_money (f : JVal -> JVal) (r : Row) : Row :=
  {| account_name := account_name r; money := f (money r);
     link := link r; stocks := stocks r |}.

(** One cell under [pd.to_numeric(..., errors="coerce")]: a number stays the
    number it is, anything that is not one becomes NaN.  (pandas keeps a
    column of integers an integer column; the cell is represented here by the
    float of the same value.) *)
Definition to_numeric (v : JVal) : JVal :=
  match v with
  | JNull => JFloat PyFloat.nan
  | JInt z => JFloat (PyFloat.of_Z z)
  | JFloat f => JFloat f
  | JStr s =>
      match numeric_of_str s with
      | Some f => JFloat f
      | None => JFloat PyFloat.nan
      end
  end.

(** [f"{stock[0]}: {stock[1]} ({stock[2]})"] *)
Definition format_holding (stock : Holding) : string :=
  symbol stock +:+ ": " +:+ format_value (quantity stock) +:+
  " (" +:+ valueLabel stock +:+ ")".

Definition newline : string := String (ascii_of_nat 10) EmptyString.

(** [get_user_info(df, username)].  The first statement assigns to a column
    of [df], which is the caller's object: the function returns the frame as
    it leaves it together with its result. *)
Definition get_user_info (df : DataFrame) (uname : string)
    : DataFrame * option (string * JVal * string) :=
  let df := map (set_money to_numeric) df in
  let user_row := List.filter (fun r => String.eqb (account_name r) uname) df in
  match user_row with
  | [] => (df, None)
  | user_data :: _ =>
      let user_name := account_name user_data in
      let user_money := money user_data in
      let user_stocks := stocks user_data in
      let formatted_holdings :=
        String.concat newline (map format_holding user_stocks) in
      (df, Some (user_name, user_money, formatted_holdings))
  end.

(** *** Building and sorting the frame of [leaderboard] *)

Definition is_int (v : JVal) : bool :=
  match v with JInt _ => true | _ => false end.
Definition is_float (v : JVal) : bool :=
  match v with JFloat _ => true | _ => false end.
Definition is_str (v : JVal) : bool :=
  match v with JStr _ => true | _ => false end.
Definition is_number (v : JVal) : bool := is_int v || is_float v.

(** A missing value for pandas: [None] or NaN. *)
Definition is_na (v : JVal) : bool :=
  match v with
  | JNull => true
  | JFloat f => PyFloat.is_nan f
  | _ => false
  end.

(** The balance column as the constructor stores it: integers alone stay
    integers; integers, floats and [None] together become floats, [None]
    becoming NaN; with a string in it the column keeps the Python objects. *)
Definition as_float64 (v : JVal) : JVal :=
  match v with
  | JInt z => JFloat (PyFloat.of_Z z)
  | JNull => JFloat PyFloat.nan
  | _ => v
  end.

Definition infer_money (df : DataFrame) : DataFrame :=
  if forallb (fun r => is_int (money r)) df then df
  else if forallb (fun r => is_number (money r) || is_na (money r)) df
       then map (set_money as_float64) df
       else df.

(** The row of one key of the file. *)
Definition row_of (kv : string * UserRecord) : Row :=
  {| account_name := fst kv; money := balance (snd kv);
     link := profileLink (snd kv); stocks := holdings (snd kv) |}.

(** An empty file gives a frame with no column; [reset_index] adds one, and
    assigning four column names to it raises [ValueError]. *)
Definition from_dict (data : Snapshot) : Result DataFrame :=
  match data with
  | [] => Raise ValueError
  | _ =>
      Ok (infer_money (map row_of data))
  end.

(** [<] between two cells of one column. *)
Definition cell_ltb (a b : JVal) : bool :=
  match a, b with
  | JInt x, JInt y => Z.ltb x y
  | JFloat x, JFloat y => PyFloat.ltb x y
  | JStr x, JStr y => String.ltb x y
  | _, _ => false
  end.

Definition by_money (a b : Row) : bool := cell_ltb (money a) (money b).

(** The cells that are present can be ordered when they are all integers,
    all floats or all strings; Python refuses to compare a string with a
    number. *)
Definition comparable (df : DataFrame) : bool :=
  forallb (fun r => is_int (money r)) df ||
  forallb (fun r => is_float (money r)) df ||
  forallb (fun r => is_str (money r)) df.

(** [df.sort_values(by="Money In Account", ascending=False)]: greatest first,
    missing values last.  (pandas does not promise an order among equal
    balances; this model keeps the order of the frame.) *)
Definition sort_values (df : DataFrame) : Result DataFrame :=
  let present := List.filter (fun r => negb (is_na (money r))) df in
  let missing := List.filter (fun r => is_na (money r)) df in
  if comparable present
  then Ok (sorted_reverse by_money present ++ missing)
  else Raise TypeError.

(** *** The [leaderboard] command *)

(** [count = max(1, min(count, 10))] *)
Definition clamp_count (count : Z) : Z := Z.max 1 (Z.min count 10).

(** The iterations [i, i+1, ..., i+n-1] of the [for] loop; each one reads
    the name at position [i], calls [get_user_info] on the frame as the
    previous call left it and unpacks the answer.  The result lists the
    triples [(user_name, user_money, user_stocks)] that the loop writes to
    [description], in order. *)
Fixpoint leaderboard_loop (df : DataFrame) (i n : nat)
    : Result (list (string * JVal * string)) :=
  match n with
  | O => Ok []
  | S n' =>
      match nth_error df i with
      | None => Raise IndexError
      | Some row =>
          match get_user_info df (account_name row) with
          | (_, None) => Raise TypeError
          | (df', Some info) =>
              rest ← leaderboard_loop df' (S i) n';
              Ok (info :: rest)
          end
      end
  end.

Definition leaderboard (data : Snapshot) (count : Z)
    : Result (list (string * JVal * string)) :=
  df ← from_dict data;
  df ← sort_values df;
  let count := clamp_count count in
  leaderboard_loop df 0 (Z.to_nat (Z.min count (Z.of_nat (length df)))).

End Bot.

(** ** Vocabulary of the statements *)

Section Vocabulary.

Context {builtins : PyBuiltins}.

(** What one iteration of the loop computes for a user found in both
    snapshots: the entry it appends to [performance]. *)
Definition compare_user (uname : string) (prev_rec curr_rec : UserRecord)
    : Result PerformanceRecord :=
  prev_money ← py_float (balance prev_rec);
  curr_money ← py_float (balance curr_rec);
  let change := PyFloat.sub curr_money prev_money in
  quotient ← py_truediv change prev_money;
  Ok {| username := uname; change_amount := change;
        change_percent := PyFloat.mul quotient PyFloat.hundred;
        trades := size (set_xor (symbols (holdings curr_rec))
                                (symbols (holdings prev_rec))) |}.

Definition extreme_of (r : PerformanceRecord) : Extreme :=
  {| ex_username := username r; amount := change_amount r;
     percent := change_percent r |}.

(** How the loop variables move when the entry [r] is appended. *)
Definition update (st : LoopState) (r : PerformanceRecord) : LoopState :=
  {| st_performance := st_performance st ++ [r];
     st_total_trades := (st_total_trades st + trades r)%nat;
     st_biggest_gain :=
       if PyFloat.ltb (percent (st_biggest_gain st)) (change_percent r)
       then extreme_of r else st_biggest_gain st;
     st_biggest_loss :=
       if PyFloat.ltb (change_percent r) (percent (st_biggest_loss st))
       then extreme_of r else st_biggest_loss st |}.

(** The entries of the users of [unames], in order, or the first exception. *)
Fixpoint records (previous_data current_data : Snapshot)
    (unames : list string) : Result (list PerformanceRecord) :=
  match unames with
  | [] => Ok []
  | uname :: rest =>
      match dict_get previous_data uname with
      | None => records previous_data current_data rest
      | Some prev_rec =>
          match dict_get current_data uname with
          | None => Raise KeyError
          | Some curr_rec =>
              r ← compare_user uname prev_rec curr_rec;
              rs ← records previous_data current_data rest;
              Ok (r :: rs)
          end
      end
  end.

(** The users the aggregation compares: the keys of the current snapshot
    that the baseline has too, in the order of the current snapshot. *)
Definition compared (previous_data current_data : Snapshot) : list string :=
  List.filter (dict_mem previous_data) (keys current_data).

(** The glossary's trade count, in the spec's words: the number of distinct
    ticker symbols whose presence differs between the two holdings lists. *)
Definition presence_differs (a b : list string) (s : string) : bool :=
  xorb (existsb (String.eqb s) a) (existsb (String.eqb s) b).

Definition trade_count_spec (prev_h curr_h : list Holding) : nat :=
  let a := map symbol prev_h in
  let b := map symbol curr_h in
  length (remove_dups (List.filter (presence_differs a b) (a ++ b))).

(** Greatest first for Python's [<] on floats: no element is less than a
    later one. *)
Definition not_below (a b : PerformanceRecord) : Prop :=
  PyFloat.ltb (change_percent a) (change_percent b) = false.



(** What [get_user_info] answers for a row. *)
Definition info_of (r : Row) : string * JVal * string :=
  (account_name r, to_numeric (money r),
   String.concat newline (map format_holding (stocks r))).

(** Every balance that [float()] accepts, in either snapshot, is a finite
    number. *)
Definition finite_balances (A B : Snapshot) : Prop :=
  forall u r f,
    dict_get A u = Some r \/ dict_get B u = Some r ->
    py_float (balance r) = Ok f -> PyFloat.is_finite f = true.

(** The dictionary the function returns when the loop has appended the
    entries [rs]. *)
Definition summary_of (rs : list PerformanceRecord) : DailySummary :=
  let st := fold_left update rs initial_state in
  {| performance := sorted_reverse by_percent rs;
     total_trades := st_total_trades st;
     biggest_gain := st_biggest_gain st;
     biggest_loss := st_biggest_loss st;
     most_active := firstn 3 (sorted_reverse by_trades rs) |}.


End Vocabulary.

(** * Worked inputs *)

Module Scenario.

Local Open Scope string_scope.

(** Digits only: [Some n] for a non-empty string of decimal digits. *)
Fixpoint read_digits (s : string) (acc : Z) : option Z :=
  match s with
  | EmptyString => Some acc
  | String c s' =>
      let n := Z.of_nat (nat_of_ascii c) in
      if Z.leb 48 n && Z.leb n 57
      then read_digits s' (10 * acc + (n - 48))
      else None
  end.

Definition read_decimal (s : string) : option Z :=
  match s with
  | EmptyString => None
  | _ => read_digits s 0
  end.

(** An instance of the interface that knows the unsigned decimal integers:
    it reads them as [float()] and pandas do and prints integers, strings
    and [None] as an f-string does.  The inputs below hold no other text. *)
Definition decimal_builtins : PyBuiltins := {|
  float_of_str s := PyFloat.of_Z <$> read_decimal s;
  numeric_of_str s := PyFloat.of_Z <$> read_decimal s;
  format_value v :=
    match v with
    | JNull => "None"
    | JInt z => pretty z
    | JFloat _ => "float"
    | JStr s => s
    end
|}.

Definition user (b : JVal) (hs : list Holding) : UserRecord :=
  {| balance := b; profileLink := ""; holdings := hs |}.

Definition aapl : Holding :=
  {| symbol := "AAPL"; quantity := JInt 10; valueLabel := "x" |}.
Definition aapl_more : Holding :=
  {| symbol := "AAPL"; quantity := JInt 25; valueLabel := "z" |}.
Definition tsla : Holding :=
  {| symbol := "TSLA"; quantity := JInt 5; valueLabel := "y" |}.

(** The scenario of the specification: alice goes from 1000 to 1200 and
    buys TSLA; bob, who holds the same symbol in another quantity, loses a
    quarter; carol is new and dave is gone. *)
Definition baseline : Snapshot :=
  [ ("alice", user (JInt 1000) [aapl]);
    ("bob", user (JStr "2000") [aapl]);
    ("dave", user (JInt 50) []) ].

Definition current : Snapshot :=
  [ ("alice", user (JInt 1200) [aapl; tsla]);
    ("carol", user (JInt 10) [tsla]);
    ("bob", user (JInt 1500) [aapl_more]) ].

(** A day on which nothing moved. *)
Definition flat_day : Snapshot := [ ("alice", user (JInt 1000) [aapl]) ].

(** A baseline with an empty account before an unreadable balance, and the
    same two faults in the other order. *)
Definition zero_then_null : Snapshot :=
  [ ("alice", user (JInt 0) []); ("bob", user JNull []) ].
Definition null_then_zero : Snapshot :=
  [ ("alice", user JNull []); ("bob", user (JInt 0) []) ].
Definition both_funded : Snapshot :=
  [ ("alice", user (JInt 1) []); ("bob", user (JInt 2) []) ].

End Scenario.

(** * The rest of [bot.py]: scheduled tasks, commands and helpers *)

(** ** The files the tasks read and write

    A file either is absent or holds the dictionary [json.load] reads in it;
    [json.dump] followed by [json.load] gives the dictionary back. *)
Record Files : Type := mkFiles {
  latest_file : option Snapshot;      (* leaderboards/leaderboard-latest.json *)
  snapshot_file : option Snapshot;    (* snapshots/leaderboard-snapshot.json *)
  morning_file : option Snapshot      (* snapshots/morning-snapshot.json *)
}.

Definition write_snapshot (data : Snapshot) (fs : Files) : Files :=
  {| latest_file := latest_file fs; snapshot_file := Some data;
     morning_file := morning_file fs |}.

Definition write_morning (data : Snapshot) (fs : Files) : Files :=
  {| latest_file := latest_file fs; snapshot_file := snapshot_file fs;
     morning_file := Some data |}.

(** ** What the bot sends and prints *)

Inductive Channel : Type :=
  | LeaderboardChannel      (* DISCORD_CHANNEL_ID_Leaderboard *)
  | StocksChannel.          (* DISCORD_CHANNEL_ID_Stocks *)

(** [bot.get_channel(int(os.environ.get(...)))]: the variable is missing or
    is not an integer, and [int] raises; or the bot knows no channel of that
    id, and the answer is [None]; or there is one. *)
Inductive ChannelLookup : Type :=
  | Misconfigured
  | Unknown
  | Found.

Record Config : Type := mkConfig {
  leaderboard_lookup : ChannelLookup;
  stocks_lookup : ChannelLookup
}.

(** The fields [send_daily_summary] adds to its embed.  The text of a field
    prints the values it carries here. *)
Inductive Field : Type :=
  | MarketActivity (total : nat)                        (* Total Trades Today *)
  | TopPerformers (ps : list PerformanceRecord)         (* performance[:3] *)
  | NeedsImprovement (ps : list PerformanceRecord)      (* performance[-3:] *)
  | BiggestGain (x : Extreme)
  | BiggestLoss (x : Extreme)
  | MostActiveTraders (ps : list PerformanceRecord).

(** A message to a channel.  The description of "Stock Changes for ..." has
    one line "+ Bought s" for each symbol of [bought], then one line
    "- Sold s" for each symbol of [sold]; Python leaves the order inside each
    group to the set, and the message is represented by the two sets. *)
Inductive Message : Type :=
  | StockChanges (uname : string) (bought sold : gset string)
  | ErrorComparing                                  (* "Error comparing stock changes: ..." *)
  | LeaderboardUpdate (top : string * JVal * string)
  | EndOfDaySummary (fields : list Field).

Inductive Printed : Type :=
  | NoMorningSnapshot         (* "No morning snapshot found" *)
  | ErrorInSendLeaderboard    (* "Error in send_leaderboard: ..." *)
  | ErrorCreatingMorning      (* "Error creating morning snapshot: ..." *)
  | ErrorInDailySummary.      (* "Error in send_daily_summary: ..." *)

Inductive Event : Type :=
  | Sent (c : Channel) (m : Message)
  | Print (p : Printed).

(** The wall clock of [datetime.now(timezone("US/Eastern"))]: the weekday,
    Monday being 0, and the time of day in microseconds. *)
Record Now : Type := mkNow {
  weekday : nat;
  time_of_day : Z
}.

Definition hms (h m s : Z) : Z := ((h * 60 + m) * 60 + s) * 1000000.

(** ** Helpers on lists and strings *)

(** [l[-3:]] *)
Definition last_three {A} (l : list A) : list A := skipn (length l - 3) l.

(** [needle in hay] on strings *)
Fixpoint contains (needle hay : string) : bool :=
  String.prefix needle hay ||
  match hay with
  | EmptyString => false
  | String _ hay' => contains needle hay'
  end.

(** [s.endswith(suffix)] *)
Definition endswith (s suffix : string) : bool :=
  let n := String.length s in
  let k := String.length suffix in
  (k <=? n)%nat && String.eqb (substring (n - k) k s) suffix.

(** The dictionary [d] without the keys that are not in [ks]. *)
Definition restrict (d : Snapshot) (ks : list string) : Snapshot :=
  List.filter (fun kv => existsb (String.eqb (fst kv)) ks) d.

(** ** [get_latest_in_time_leaderboard]

    The directory is given by what [os.listdir] and [os.path.getctime]
    answer: the names, in the order of the listing, each with its creation
    time. *)

Definition in_time_dir : string := "./backend/leaderboards/in_time".

(** [max(files, key=...)]: a later file replaces the best one only when its
    key is strictly greater. *)
Fixpoint max_by_ctime (best : string * float) (rest : list (string * float))
    : string * float :=
  match rest with
  | [] => best
  | f :: rest' =>
      max_by_ctime (if PyFloat.ltb (snd best) (snd f) then f else best) rest'
  end.

Definition get_latest_in_time_leaderboard (listing : list (string * float))
    : option string :=
  let files := List.filter (fun f => endswith (fst f) ".json") listing in
  match files with
  | [] => None
  | f :: rest =>
      let latest_file := fst (max_by_ctime f rest) in
      Some (in_time_dir +:+ "/" +:+ latest_file)
  end.

(** ** [username_autocomplete]

    [str.lower] is Python's; it is a parameter here. *)

Record Choice : Type := mkChoice {
  choice_name : string;
  choice_value : string
}.

Definition username_autocomplete (lower : string -> string)
    (usernames_list : list string) (current : string) : list Choice :=
  firstn 25
    (map (fun uname => {| choice_name := uname; choice_value := uname |})
       (List.filter (fun uname => contains (lower current) (lower uname))
          usernames_list)).

Section Tasks.

Context {builtins : PyBuiltins}.

(** ** [compare_stock_changes] *)

(** The loop over [current_data]: the messages sent so far and the exception
    that stopped it, if any. *)
Fixpoint changes_loop (previous_data current_data : Snapshot)
    (unames : list string) : list Message * option PyExc :=
  match unames with
  | [] => ([], None)
  | uname :: rest =>
      match dict_get previous_data uname with
      | None => changes_loop previous_data current_data rest
      | Some prev_rec =>
          match dict_get current_data uname with
          | None => ([], Some KeyError)
          | Some curr_rec =>
              let current_stocks := symbols (holdings curr_rec) in
              let previous_stocks := symbols (holdings prev_rec) in
              let new_stocks := current_stocks ∖ previous_stocks in
              let removed_stocks := previous_stocks ∖ current_stocks in
              let sent :=
                if bool_decide (new_stocks = ∅) && bool_decide (removed_stocks = ∅)
                then []
                else [StockChanges uname new_stocks removed_stocks] in
              let '(more, exc) :=
                changes_loop previous_data current_data rest in
              (sent ++ more, exc)
          end
      end
  end.

(** [compare_stock_changes(channel)]: the files as the call leaves them and
    what it sends.  An exception (a missing file) is answered on the channel
    and the snapshot is not rewritten. *)
Definition compare_stock_changes (channel : Channel) (fs : Files)
    : Files * list Event :=
  match snapshot_file fs with
  | None =>
      match latest_file fs with
      | None => (fs, [Sent channel ErrorComparing])
      | Some current_data => (write_snapshot current_data fs, [])
      end
  | Some previous_data =>
      match latest_file fs with
      | None => (fs, [Sent channel ErrorComparing])
      | Some current_data =>
          match changes_loop previous_data current_data
                  (keys current_data) with
          | (sent, None) =>
              (write_snapshot current_data fs, map (Sent channel) sent)
          | (sent, Some _) =>
              (fs, map (Sent channel) sent ++ [Sent channel ErrorComparing])
          end
      end
  end.

(** What the loop sends for one key of the current snapshot. *)
Definition message_for (previous_data current_data : Snapshot)
    (uname : string) : list Message :=
  match dict_get previous_data uname, dict_get current_data uname with
  | Some prev_rec, Some curr_rec =>
      let bought := symbols (holdings curr_rec) ∖ symbols (holdings prev_rec) in
      let sold := symbols (holdings prev_rec) ∖ symbols (holdings curr_rec) in
      if bool_decide (bought = ∅) && bool_decide (sold = ∅)
      then []
      else [StockChanges uname bought sold]
  | _, _ => []
  end.

(** ** [create_morning_snapshot] and [start_of_day] *)

Definition create_morning_snapshot (fs : Files) : Files * list Event :=
  match latest_file fs with
  | None => (fs, [Print ErrorCreatingMorning])
  | Some current_data => (write_morning current_data fs, [])
  end.

Definition start_of_day (now : Now) (fs : Files) : Files * list Event :=
  if (weekday now <? 5)%nat then create_morning_snapshot fs else (fs, []).

(** ** [send_daily_summary] *)

(** The fields of the embed, in the order they are added; the two biggest
    moves are shown when their username is a non-empty string. *)
Definition summary_fields (stats : DailySummary) : list Field :=
  [ MarketActivity (total_trades stats);
    TopPerformers (firstn 3 (performance stats));
    NeedsImprovement (last_three (performance stats)) ] ++
  (if String.eqb (ex_username (biggest_gain stats)) ""
   then [] else [BiggestGain (biggest_gain stats)]) ++
  (if String.eqb (ex_username (biggest_loss stats)) ""
   then [] else [BiggestLoss (biggest_loss stats)]) ++
  [ MostActiveTraders (most_active stats) ].

Definition send_daily_summary (cfg : Config) (now : Now) (fs : Files)
    : list Event :=
  if (weekday now <? 5)%nat then
    match morning_file fs with
    | None => [Print NoMorningSnapshot]
    | Some morning_data =>
        match latest_file fs with
        | None => [Print ErrorInDailySummary]
        | Some current_data =>
            match calculate_daily_performance morning_data current_data with
            | Raise _ => [Print ErrorInDailySummary]
            | Ok stats =>
                match performance stats with
                | [] => []
                | _ :: _ =>
                    let embed := EndOfDaySummary (summary_fields stats) in
                    match leaderboard_lookup cfg with
                    | Misconfigured => [Print ErrorInDailySummary]
                    | Unknown => []
                    | Found => [Sent LeaderboardChannel embed]
                    end
                end
            end
        end
    end
  else [].

(** ** [send_leaderboard] *)

(** [start_time <= now <= end_time], from 9:15 to 16:15 on a weekday. *)
Definition in_trading_hours (now : Now) : bool :=
  (weekday now <? 5)%nat &&
  (hms 9 15 0 <=? time_of_day now) && (time_of_day now <=? hms 16 15 0).

(** The frame sorted as in [leaderboard] and
    [get_user_info(df, df.iloc[0]["Account Name"])]. *)
Definition top_ranked (data : Snapshot) : Result (string * JVal * string) :=
  df ← from_dict data;
  df ← sort_values df;
  match nth_error df 0 with
  | None => Raise IndexError
  | Some row =>
      match snd (get_user_info df (account_name row)) with
      | None => Raise TypeError
      | Some info => Ok info
      end
  end.

Definition send_leaderboard (cfg : Config) (now : Now) (fs : Files)
    : Files * list Event :=
  if in_trading_hours now then
    match latest_file fs with
    | None => (fs, [Print ErrorInSendLeaderboard])
    | Some data =>
        match top_ranked data with
        | Raise _ => (fs, [Print ErrorInSendLeaderboard])
        | Ok top =>
            match leaderboard_lookup cfg, stocks_lookup cfg with
            | Misconfigured, _ | _, Misconfigured =>
                (fs, [Print ErrorInSendLeaderboard])
            | leaderboard_channel, stocks_channel =>
                let update :=
                  match leaderboard_channel with
                  | Found => [Sent LeaderboardChannel (LeaderboardUpdate top)]
                  | _ => []
                  end in
                match stocks_channel with
                | Found =>
                    let '(fs', changes) :=
                      compare_stock_changes StocksChannel fs in
                    (fs', update ++ changes)
                | _ => (fs, update)
                end
            end
        end
    end
  else (fs, []).

(** What the commands show of a user of the file: the name, the coerced
    balance and the holdings, one per line. *)
Definition shown (uname : string) (rec : UserRecord)
    : string * JVal * string :=
  (uname, to_numeric (balance rec),
   String.concat newline (map format_holding (holdings rec))).

(** ** The [userinfo] command *)



End Tasks.

(** ** Worked inputs for the tasks *)

Module Trading.

Import Scenario.
Local Open Scope string_scope.

Definition configured : Config :=
  {| leaderboard_lookup := Found; stocks_lookup := Found |}.

(** DISCORD_CHANNEL_ID_Stocks is not set. *)
Definition no_stocks_id : Config :=
  {| leaderboard_lookup := Found; stocks_lookup := Misconfigured |}.

Definition monday_open : Now := {| weekday := 0; time_of_day := hms 9 30 0 |}.
Definition monday_noon : Now := {| weekday := 0; time_of_day := hms 12 0 0 |}.
Definition monday_close : Now := {| weekday := 0; time_of_day := hms 16 0 0 |}.

(** The first run: no snapshot has been written yet. *)
Definition first_run : Files :=
  {| latest_file := Some current; snapshot_file := None;
     morning_file := None |}.

(** Later in the day: both snapshots hold the baseline. *)
Definition mid_day : Files :=
  {| latest_file := Some current; snapshot_file := Some baseline;
     morning_file := Some baseline |}.

(** A day on which the latest file is never refreshed. *)
Definition quiet_day : Files :=
  {| latest_file := Some flat_day; snapshot_file := None;
     morning_file := None |}.

(** A directory with two leaderboards and a file of another kind. *)
Definition listing : list (string * float) :=
  [ ("a.json", PyFloat.of_Z 1); ("notes.txt", PyFloat.of_Z 9);
    ("b.json", PyFloat.of_Z 2) ].

End Trading.

(** * Properties *)

(** ** The order of Python floats *)

Ltac sf_destruct :=
  repeat match goal with
  | x : spec_float |- _ => destruct x as [[]|[]| |[] ? ?]
  | x : PyFloat.float |- _ => destruct x as [[]|[]| |[] ? ?]
  end.

Ltac cmp_cases :=
  repeat match goal with
  | H : context [Z.compare ?a ?b] |- _ =>
      destruct (Z.compare_spec a b); try lia; subst
  | |- context [Z.compare ?a ?b] =>
      destruct (Z.compare_spec a b); try lia; subst
  | H : context [Pos.compare_cont Eq ?a ?b] |- _ =>
      change (Pos.compare_cont Eq a b) with (Pos.compare a b) in *;
      destruct (Pos.compare_spec a b); try lia; subst
  | |- context [Pos.compare_cont Eq ?a ?b] =>
      change (Pos.compare_cont Eq a b) with (Pos.compare a b) in *;
      destruct (Pos.compare_spec a b); try lia; subst
  end.

Ltac sf_order :=
  unfold PyFloat.ltb, PyFloat.is_nan, SFltb, SFeqb, SFcompare; intros;
  sf_destruct; try discriminate; try reflexivity;
  cbn in *; try discriminate; try reflexivity;
  cmp_cases; cbn in *; try discriminate; try reflexivity; try lia.

Lemma ltb_irrefl (a : float) : PyFloat.ltb a a = false.
Proof. sf_order. Qed.

Lemma ltb_asym (a b : float) :
  PyFloat.ltb a b = true -> PyFloat.ltb b a = false.
Proof. sf_order. Qed.

Lemma ltb_trans (a b c : float) :
  PyFloat.ltb a b = true -> PyFloat.ltb b c = true -> PyFloat.ltb a c = true.
Proof. sf_order. Qed.

(** Without NaN, "not less" is transitive: the order is total. *)
Lemma ltb_neg_trans (a b c : float) :
  PyFloat.is_nan b = false ->
  PyFloat.ltb a b = false -> PyFloat.ltb b c = false ->
  PyFloat.ltb a c = false.
Proof. sf_order. Qed.


(** ** Arithmetic on finite floats gives no NaN *)

Lemma shr_1_nonneg (mrs : shr_record) :
  0 <= shr_m mrs -> 0 <= shr_m (shr_1 mrs).
Proof. destruct mrs as [[|[p|p|]|[p|p|]] r s]; cbn; lia. Qed.

Lemma iter_pos_preserves {A} (P : A -> Prop) (f : A -> A) :
  (forall x, P x -> P (f x)) ->
  forall n x, P x -> P (SpecFloat.iter_pos f n x).
Proof.
  intros Hf n. induction n as [n IH|n IH|]; intros x Hx; cbn; auto.
Qed.

Lemma shr_nonneg (mrs : shr_record) (e n : Z) :
  0 <= shr_m mrs -> 0 <= shr_m (fst (shr mrs e n)).
Proof.
  intros H. destruct n as [|p|p]; cbn; try exact H.
  apply (iter_pos_preserves (fun m => 0 <= shr_m m));
    [apply shr_1_nonneg|exact H].
Qed.

Lemma shr_fexp_nonneg (prec emax m e : Z) (l : location) :
  0 <= m -> 0 <= shr_m (fst (shr_fexp prec emax m e l)).
Proof.
  intros H. unfold shr_fexp. apply shr_nonneg.
  destruct l as [|[]]; exact H.
Qed.

Lemma round_nearest_even_nonneg (m : Z) (l : location) :
  0 <= m -> 0 <= round_nearest_even m l.
Proof. destruct l as [|[]]; cbn; try destruct (Z.even m); lia. Qed.

(** Rounding a non-negative mantissa never takes the branch that answers
    NaN. *)
Lemma binary_round_aux_not_nan (prec emax : Z) (sx : bool) (mx ex : Z)
    (lx : location) :
  0 <= mx -> PyFloat.is_nan (binary_round_aux prec emax sx mx ex lx) = false.
Proof.
  intros H. unfold binary_round_aux.
  pose proof (shr_fexp_nonneg prec emax mx ex lx H) as H1.
  destruct (shr_fexp prec emax mx ex lx) as [mrs' e']. cbn in H1.
  pose proof (shr_fexp_nonneg prec emax _ e' loc_Exact
                (round_nearest_even_nonneg _ (loc_of_shr_record mrs') H1))
    as H2.
  destruct (shr_fexp prec emax _ e' loc_Exact) as [mrs'' e'']. cbn in H2.
  destruct (shr_m mrs'') as [|m|m]; try reflexivity; [|lia].
  destruct (e'' <=? emax - prec); reflexivity.
Qed.

Lemma binary_normalize_not_nan (prec emax m e : Z) (sz : bool) :
  PyFloat.is_nan (binary_normalize prec emax m e sz) = false.
Proof.
  destruct m as [|p|p]; cbn; [reflexivity| |];
    unfold binary_round; destruct (shl_align _ _ _);
    apply binary_round_aux_not_nan; lia.
Qed.

Lemma sub_not_nan (x y : float) :
  PyFloat.is_finite x = true -> PyFloat.is_finite y = true ->
  PyFloat.is_nan (PyFloat.sub x y) = false.
Proof.
  destruct x as [[]|[]| |sx mx ex], y as [[]|[]| |sy my ey];
    try discriminate; intros _ _; try reflexivity.
  unfold PyFloat.sub, SFsub. apply binary_normalize_not_nan.
Qed.

Lemma div_not_nan (x y : float) :
  PyFloat.is_nan x = false ->
  PyFloat.is_finite y = true -> PyFloat.is_zero y = false ->
  PyFloat.is_nan (PyFloat.div x y) = false.
Proof.
  destruct x as [[]|[]| |sx mx ex], y as [[]|[]| |sy my ey];
    try discriminate; intros _ _ _; try reflexivity.
  unfold PyFloat.div, SFdiv.
  destruct (SFdiv_core_binary _ _ _ _ _ _) as [[mz ez] lz] eqn:E.
  apply binary_round_aux_not_nan.
  unfold SFdiv_core_binary in E.
  match type of E with context [Z.div_eucl ?a ?b] =>
    pose proof (Z_div_mod a b ltac:(lia)) as Hd;
    assert (0 <= a) as Ha; [|destruct (Z.div_eucl a b) as [q r]]
  end.
  - match goal with
    | |- 0 <= match ?s with _ => _ end => destruct s
    end; try lia.
    apply Z.shiftl_nonneg. lia.
  - injection E as <- _ _. nia.
Qed.

Lemma mul_hundred_not_nan (x : float) :
  PyFloat.is_nan x = false ->
  PyFloat.is_nan (PyFloat.mul x PyFloat.hundred) = false.
Proof.
  destruct x as [[]|[]| |sx mx ex]; try discriminate; intros _;
    try reflexivity.
  unfold PyFloat.mul, PyFloat.hundred, SFmul.
  apply binary_round_aux_not_nan. lia.
Qed.

(** The percentage of the loop on two finite balances is a number. *)
Lemma percent_not_nan (prev_money curr_money : float) :
  PyFloat.is_finite prev_money = true ->
  PyFloat.is_finite curr_money = true ->
  PyFloat.is_zero prev_money = false ->
  PyFloat.is_nan
    (PyFloat.mul
       (PyFloat.div (PyFloat.sub curr_money prev_money) prev_money)
       PyFloat.hundred) = false.
Proof.
  intros Hp Hc Hz. apply mul_hundred_not_nan, div_not_nan; try assumption.
  apply sub_not_nan; assumption.
Qed.

(** ** The error monad *)

Lemma bind_Ok {A B} (m : Result A) (f : A -> Result B) (b : B) :
  m ≫= f = Ok b <-> exists a, m = Ok a /\ f a = Ok b.
Proof.
  destruct m as [a|e]; cbn; split.
  - intros H. exists a. auto.
  - intros (a' & [= <-] & H). exact H.
  - discriminate.
  - intros (a' & [=] & _).
Qed.

Lemma bind_Raise {A B} (m : Result A) (f : A -> Result B) (e : PyExc) :
  m ≫= f = Raise e <-> m = Raise e \/ exists a, m = Ok a /\ f a = Raise e.
Proof.
  destruct m as [a|e']; cbn; split.
  - intros H. right. exists a. auto.
  - intros [[=]|(a' & [= <-] & H)]. exact H.
  - intros [= ->]. left. reflexivity.
  - intros [[= ->]|(a' & [=] & _)]. reflexivity.
Qed.

Lemma raises_bind_l {A B} (m : Result A) (f : A -> Result B) :
  raises m -> raises (m ≫= f).
Proof. intros [e ->]. exists e. reflexivity. Qed.

Lemma raises_bind_r {A B} (m : Result A) (f : A -> Result B) :
  (forall a, raises (f a)) -> raises (m ≫= f).
Proof.
  intros H. destruct m as [a|e]; cbn.
  - apply H.
  - exists e. reflexivity.
Qed.

Lemma raises_not_Ok {A} (m : Result A) (a : A) : raises m -> m <> Ok a.
Proof. intros [e ->]. discriminate. Qed.

(** ** Dictionaries *)

Lemma dict_get_In (d : Snapshot) (k : string) (v : UserRecord) :
  dict_get d k = Some v -> In k (keys d).
Proof.
  induction d as [|[k' v'] d IH]; cbn; [discriminate|].
  destruct (String.eqb_spec k' k) as [->|Hne]; [left; reflexivity|].
  intros H. right. apply IH, H.
Qed.

Lemma In_dict_get (d : Snapshot) (k : string) :
  In k (keys d) -> exists v, dict_get d k = Some v.
Proof.
  induction d as [|[k' v'] d IH]; cbn; [intros []|].
  destruct (String.eqb_spec k' k) as [->|Hne]; [eauto|].
  intros [H|H]; [contradiction|]. apply IH, H.
Qed.

Lemma dict_mem_true (d : Snapshot) (k : string) :
  dict_mem d k = true <-> In k (keys d).
Proof.
  unfold dict_mem. split.
  - destruct (dict_get d k) eqn:E; [|discriminate].
    intros _. eapply dict_get_In, E.
  - intros [v ->]%In_dict_get. reflexivity.
Qed.

(** ** The loop of [calculate_daily_performance] *)

Section Aggregation.

Context {builtins : PyBuiltins}.
Variables previous_data current_data : Snapshot.

Lemma loop_body_eq (st : LoopState) (uname : string) :
  loop_body previous_data current_data st uname =
  match dict_get previous_data uname with
  | None => Ok st
  | Some prev_rec =>
      match dict_get current_data uname with
      | None => Raise KeyError
      | Some curr_rec =>
          r ← compare_user uname prev_rec curr_rec; Ok (update st r)
      end
  end.
Proof.
  unfold loop_body, compare_user.
  destruct (dict_get previous_data uname) as [p|]; [|reflexivity].
  destruct (dict_get current_data uname) as [c|]; [|reflexivity].
  destruct (py_float (balance p)) as [fp|]; [|reflexivity].
  destruct (py_float (balance c)) as [fc|]; [|reflexivity].
  cbn. destruct (py_truediv (PyFloat.sub fc fp) fp); reflexivity.
Qed.

(** The loop computes the entries one after the other and stops at the first
    exception; the loop variables are a fold over the entries. *)
Lemma loop_eq (unames : list string) (st : LoopState) :
  loop previous_data current_data unames st =
  rs ← records previous_data current_data unames; Ok (fold_left update rs st).
Proof.
  revert st. induction unames as [|u us IH]; intros st; [reflexivity|].
  cbn [loop records]. rewrite loop_body_eq.
  destruct (dict_get previous_data u) as [p|]; [|apply IH].
  destruct (dict_get current_data u) as [c|]; [|reflexivity].
  destruct (compare_user u p c) as [r|]; [|reflexivity].
  cbn. rewrite IH.
  destruct (records previous_data current_data us); reflexivity.
Qed.

Lemma fold_update_performance (rs : list PerformanceRecord) (st : LoopState) :
  st_performance (fold_left update rs st) = st_performance st ++ rs.
Proof.
  revert st. induction rs as [|r rs IH]; intros st; cbn.
  - symmetry. apply app_nil_r.
  - rewrite IH. cbn. rewrite <- app_assoc. reflexivity.
Qed.

Lemma calculate_eq :
  calculate_daily_performance previous_data current_data =
  rs ← records previous_data current_data (keys current_data);
  Ok (summary_of rs).
Proof.
  unfold calculate_daily_performance. rewrite loop_eq.
  destruct (records previous_data current_data (keys current_data)) as [rs|];
    [|reflexivity].
  cbn. unfold summary_of. rewrite fold_update_performance. reflexivity.
Qed.

Lemma calculate_Ok (s : DailySummary) :
  calculate_daily_performance previous_data current_data = Ok s <->
  exists rs, records previous_data current_data (keys current_data) = Ok rs /\
             s = summary_of rs.
Proof.
  rewrite calculate_eq, bind_Ok. split; intros (rs & H1 & H2); exists rs.
  - split; [exact H1|]. injection H2 as <-. reflexivity.
  - split; [exact H1|]. rewrite H2. reflexivity.
Qed.

Lemma calculate_raises :
  raises (records previous_data current_data (keys current_data)) ->
  raises (calculate_daily_performance previous_data current_data).
Proof. rewrite calculate_eq. apply raises_bind_l. Qed.

(** *** What the entries are *)

Lemma compare_user_Ok (u : string) (p c : UserRecord) (r : PerformanceRecord) :
  compare_user u p c = Ok r <->
  exists fp fc,
    py_float (balance p) = Ok fp /\ py_float (balance c) = Ok fc /\
    PyFloat.is_zero fp = false /\
    r = {| username := u; change_amount := PyFloat.sub fc fp;
           change_percent :=
             PyFloat.mul (PyFloat.div (PyFloat.sub fc fp) fp) PyFloat.hundred;
           trades := size (set_xor (symbols (holdings c))
                                   (symbols (holdings p))) |}.
Proof.
  unfold compare_user, py_truediv. split.
  - destruct (py_float (balance p)) as [fp|]; [|discriminate].
    destruct (py_float (balance c)) as [fc|]; [|discriminate].
    cbn. destruct (PyFloat.is_zero fp) eqn:Hz; [discriminate|].
    cbn. intros [= <-]. exists fp, fc. auto.
  - intros (fp & fc & -> & -> & Hz & ->). cbn. rewrite Hz. reflexivity.
Qed.

Lemma records_Ok_names (unames : list string) (rs : list PerformanceRecord) :
  records previous_data current_data unames = Ok rs ->
  map username rs = List.filter (dict_mem previous_data) unames.
Proof.
  revert rs. induction unames as [|u us IH]; intros rs; cbn.
  - intros [= <-]. reflexivity.
  - unfold dict_mem at 1.
    destruct (dict_get previous_data u) as [p|]; [|apply IH].
    destruct (dict_get current_data u) as [c|]; [|discriminate].
    intros (r & Hr & (rs' & Hrs & [= <-])%bind_Ok)%bind_Ok.
    cbn. rewrite (IH _ Hrs).
    apply compare_user_Ok in Hr as (fp & fc & _ & _ & _ & ->). reflexivity.
Qed.

Lemma records_Ok_In (unames : list string) (rs : list PerformanceRecord)
    (r : PerformanceRecord) :
  records previous_data current_data unames = Ok rs -> In r rs ->
  exists p c, In (username r) unames /\
    dict_get previous_data (username r) = Some p /\
    dict_get current_data (username r) = Some c /\
    compare_user (username r) p c = Ok r.
Proof.
  revert rs. induction unames as [|u us IH]; intros rs; cbn.
  - intros [= <-] [].
  - destruct (dict_get previous_data u) as [p|] eqn:Ep.
    + destruct (dict_get current_data u) as [c|] eqn:Ec; [|discriminate].
      intros (r0 & Hr & (rs' & Hrs & [= <-])%bind_Ok)%bind_Ok [<-|Hin].
      * pose proof Hr as (fp & fc & _ & _ & _ & E)%compare_user_Ok.
        assert (username r0 = u) as Hu by (rewrite E; reflexivity).
        rewrite Hu. exists p, c. auto.
      * destruct (IH _ Hrs Hin) as (p' & c' & ? & ? & ? & ?).
        exists p', c'. auto.
    + intros Hrs Hin. destruct (IH _ Hrs Hin) as (p' & c' & ? & ? & ? & ?).
      exists p', c'. auto.
Qed.

(** An exception for one compared user is an exception for the whole. *)
Lemma records_raises (unames : list string) (u : string) (p c : UserRecord) :
  In u unames ->
  dict_get previous_data u = Some p -> dict_get current_data u = Some c ->
  raises (compare_user u p c) ->
  raises (records previous_data current_data unames).
Proof.
  intros Hin Hp Hc Hr. induction unames as [|u' us IH]; [destruct Hin|].
  cbn. destruct Hin as [->|Hin].
  - rewrite Hp, Hc. apply raises_bind_l, Hr.
  - destruct (dict_get previous_data u') as [p'|]; [|apply IH, Hin].
    destruct (dict_get current_data u') as [c'|]; [|eexists; reflexivity].
    apply raises_bind_r. intros r.
    apply raises_bind_l, IH, Hin.
Qed.

(** The exception of the whole is the exception of one compared user. *)
Lemma records_Raise (unames : list string) (e : PyExc) :
  (forall u, In u unames -> In u (keys current_data)) ->
  records previous_data current_data unames = Raise e ->
  exists u p c, In u unames /\
    dict_get previous_data u = Some p /\ dict_get current_data u = Some c /\
    compare_user u p c = Raise e.
Proof.
  induction unames as [|u us IH]; intros Hsub; cbn; [discriminate|].
  assert (forall u', In u' us -> In u' (keys current_data)) as Hsub'
    by (intros u' H; apply Hsub; right; exact H).
  destruct (dict_get previous_data u) as [p|] eqn:Ep.
  - destruct (In_dict_get current_data u) as [c Ec];
      [apply Hsub; left; reflexivity|].
    rewrite Ec. intros [H|(r & Hr & [H|(rs & Hrs & [=])]%bind_Raise)]%bind_Raise.
    + exists u, p, c. cbn. auto.
    + destruct (IH Hsub' H) as (u' & p' & c' & ? & ? & ? & ?).
      exists u', p', c'. cbn. auto.
  - intros H. destruct (IH Hsub' H) as (u' & p' & c' & ? & ? & ? & ?).
    exists u', p', c'. cbn. auto.
Qed.

End Aggregation.

(** ** [sorted(..., reverse=True)] *)

Section SortedFacts.

Context {A : Type} (lt : A -> A -> bool).

Lemma insert_desc_perm (x : A) (l : list A) :
  Permutation (insert_desc lt x l) (x :: l).
Proof.
  induction l as [|y l IH]; cbn; [reflexivity|].
  destruct (lt x y); [|reflexivity].
  rewrite IH. apply perm_swap.
Qed.

Lemma sorted_reverse_perm (l : list A) : Permutation (sorted_reverse lt l) l.
Proof.
  induction l as [|x l IH]; cbn; [reflexivity|].
  rewrite insert_desc_perm, IH. reflexivity.
Qed.

Lemma sorted_reverse_In (l : list A) (x : A) :
  In x (sorted_reverse lt l) <-> In x l.
Proof.
  split; apply Permutation_in;
    [|symmetry]; apply sorted_reverse_perm.
Qed.

(** Sortedness needs of [lt] what a sort needs of [<]: on the elements that
    satisfy [P] it is the strict part of a total preorder. *)
Section Order.

Variable P : A -> Prop.
Hypothesis lt_asym : forall a b, P a -> P b -> lt a b = true -> lt b a = false.
Hypothesis lt_neg_trans : forall a b c,
  P a -> P b -> P c -> lt a b = false -> lt b c = false -> lt a c = false.

Lemma insert_desc_sorted (x : A) (l : list A) :
  P x -> Forall P l ->
  StronglySorted (fun a b => lt a b = false) l ->
  StronglySorted (fun a b => lt a b = false) (insert_desc lt x l).
Proof.
  intros HPx HP Hs. induction Hs as [|y l Hs IH Hy]; cbn.
  - constructor; constructor.
  - apply List.Forall_cons_iff in HP as [HPy HPl].
    destruct (lt x y) eqn:E.
    + constructor; [apply IH, HPl|].
      rewrite List.Forall_forall in *. intros z Hz.
      apply (Permutation_in _ (insert_desc_perm x l)) in Hz as [<-|Hz].
      * apply lt_asym; assumption.
      * apply Hy, Hz.
    + constructor; [constructor; assumption|].
      constructor; [exact E|].
      rewrite List.Forall_forall in *. intros z Hz.
      apply (lt_neg_trans x y z); auto.
Qed.

Lemma sorted_reverse_sorted (l : list A) :
  Forall P l ->
  StronglySorted (fun a b => lt a b = false) (sorted_reverse lt l).
Proof.
  induction l as [|x l IH]; cbn; intros HP; [constructor|].
  apply List.Forall_cons_iff in HP as [HPx HPl].
  apply insert_desc_sorted; [exact HPx| |apply IH, HPl].
  rewrite List.Forall_forall in *. intros z Hz. apply HPl.
  apply sorted_reverse_In, Hz.
Qed.

End Order.



End SortedFacts.

(** ** Trade counts *)

Lemma existsb_eqb_In (x : string) (l : list string) :
  existsb (String.eqb x) l = true <-> In x l.
Proof.
  rewrite existsb_exists. split.
  - intros (y & Hy & ->%String.eqb_eq). exact Hy.
  - intros H. exists x. split; [exact H|apply String.eqb_refl].
Qed.

Lemma elem_of_symbols (hs : list Holding) (x : string) :
  x ∈ symbols hs <-> In x (map symbol hs).
Proof. unfold symbols. rewrite elem_of_list_to_set. apply list_elem_of_In. Qed.

Lemma elem_of_set_xor (s t : gset string) (x : string) :
  x ∈ set_xor s t <-> (x ∈ s /\ x ∉ t) \/ (x ∈ t /\ x ∉ s).
Proof. unfold set_xor. set_solver. Qed.

Lemma size_list_to_set_remove_dups (l : list string) :
  size (list_to_set l : gset string) = length (remove_dups l).
Proof.
  rewrite <- (size_list_to_set (C := gset string) (remove_dups l))
    by apply NoDup_remove_dups.
  f_equal. apply set_eq. intros x.
  rewrite !elem_of_list_to_set, elem_of_remove_dups. reflexivity.
Qed.

(** The set computation of the loop counts what the glossary describes. *)
Lemma size_set_xor_spec (prev_h curr_h : list Holding) :
  size (set_xor (symbols curr_h) (symbols prev_h)) =
  trade_count_spec prev_h curr_h.
Proof.
  unfold trade_count_spec. rewrite <- size_list_to_set_remove_dups.
  f_equal. apply set_eq. intros x.
  rewrite elem_of_set_xor, elem_of_list_to_set, list_elem_of_In, filter_In.
  rewrite !elem_of_symbols, in_app_iff. unfold presence_differs.
  pose proof (existsb_eqb_In x (map symbol prev_h)) as Ha.
  pose proof (existsb_eqb_In x (map symbol curr_h)) as Hb.
  destruct (existsb (String.eqb x) (map symbol prev_h)),
           (existsb (String.eqb x) (map symbol curr_h)); cbn;
    intuition congruence.
Qed.

Lemma size_set_xor_same (prev_h curr_h : list Holding) :
  (forall x, In x (map symbol prev_h) <-> In x (map symbol curr_h)) ->
  size (set_xor (symbols curr_h) (symbols prev_h)) = 0%nat.
Proof.
  intros Hsame. apply size_empty_iff. apply set_equiv. intros x.
  rewrite elem_of_set_xor, !elem_of_symbols, Hsame. split.
  - intros [[? ?]|[? ?]]; contradiction.
  - intros H. destruct (not_elem_of_empty (C := gset string) x H).
Qed.

(** ** The summary of [calculate_daily_performance] *)

Section Summary.

Context {builtins : PyBuiltins}.
Variables previous_data current_data : Snapshot.
Variable s : DailySummary.
Hypothesis Hs : calculate_daily_performance previous_data current_data = Ok s.

(** Every entry of the list was computed for its user from the two records
    of that user. *)
Lemma performance_In (r : PerformanceRecord) :
  In r (performance s) ->
  exists p c,
    dict_get previous_data (username r) = Some p /\
    dict_get current_data (username r) = Some c /\
    compare_user (username r) p c = Ok r.
Proof.
  apply calculate_Ok in Hs as (rs & Hrs & ->). cbn.
  rewrite sorted_reverse_In. intros Hin.
  destruct (records_Ok_In _ _ _ _ _ Hrs Hin) as (p & c & _ & ? & ? & ?).
  exists p, c. auto.
Qed.

Lemma performance_names (u : string) :
  In u (map username (performance s)) <->
  In u (keys previous_data) /\ In u (keys current_data).
Proof.
  apply calculate_Ok in Hs as (rs & Hrs & ->). cbn.
  assert (In u (map username (sorted_reverse by_percent rs)) <->
          In u (map username rs)) as ->.
  { rewrite !in_map_iff. split; intros (r & Hu & Hin); exists r;
      (split; [exact Hu|]).
    - apply (proj1 (sorted_reverse_In by_percent rs r)), Hin.
    - apply (proj2 (sorted_reverse_In by_percent rs r)), Hin. }
  rewrite (records_Ok_names _ _ _ _ Hrs), filter_In, dict_mem_true. tauto.
Qed.

Lemma performance_of_user (u : string) (p c : UserRecord) :
  dict_get previous_data u = Some p -> dict_get current_data u = Some c ->
  exists r, In r (performance s) /\ username r = u.
Proof.
  intros Hp Hc.
  assert (In u (map username (performance s))) as (r & ? & ?)%in_map_iff.
  { apply performance_names. split; eapply dict_get_In; eassumption. }
  exists r. auto.
Qed.

End Summary.

(** ** The claims about [calculate_daily_performance] *)

Section AggregationClaims.

Context {builtins : PyBuiltins}.

(** C1: for two snapshots A (baseline) and B (current) and a username u
    present in both, when the aggregation returns a summary the balances of u
    convert to floats, the performance list has an entry for u, and every
    entry for u has [change_amount] equal to B[u].balance minus
    A[u].balance. *)
Theorem C1_change_amount (A B : Snapshot) (s : DailySummary) (u : string)
    (ra rb : UserRecord) :
  calculate_daily_performance A B = Ok s ->
  dict_get A u = Some ra -> dict_get B u = Some rb ->
  exists fa fb,
    py_float (balance ra) = Ok fa /\ py_float (balance rb) = Ok fb /\
    (exists r, In r (performance s) /\ username r = u) /\
    (forall r, In r (performance s) -> username r = u ->
               change_amount r = PyFloat.sub fb fa).
Proof.
  intros Hs Ha Hb.
  destruct (performance_of_user A B s Hs u ra rb Ha Hb) as (r & Hin & Hu).
  destruct (performance_In A B s Hs r Hin) as (p & c & Hp & Hc & Hr).
  rewrite Hu, Ha in Hp. rewrite Hu, Hb in Hc.
  injection Hp as <-. injection Hc as <-.
  apply compare_user_Ok in Hr as (fa & fb & Hfa & Hfb & _ & _).
  exists fa, fb. split; [exact Hfa|]. split; [exact Hfb|]. split.
  - exists r. auto.
  - intros r' Hin' Hu'.
    destruct (performance_In A B s Hs r' Hin') as (p & c & Hp & Hc & Hr).
    rewrite Hu', Ha in Hp. rewrite Hu', Hb in Hc.
    injection Hp as <-. injection Hc as <-.
    apply compare_user_Ok in Hr as (fa' & fb' & Hfa' & Hfb' & _ & ->).
    cbn. congruence.
Qed.

(** C2: for two snapshots and a user present in both, the [trades] field of
    every entry for that user is the number of distinct symbols whose
    presence differs between the baseline and the current holdings (the size
    of the symmetric difference of the two symbol sets); it is 0 whenever the
    two holdings lists contain the same symbols, whatever their quantity and
    value fields are. *)
Theorem C2_trade_count (A B : Snapshot) (s : DailySummary) (u : string)
    (ra rb : UserRecord) (r : PerformanceRecord) :
  calculate_daily_performance A B = Ok s ->
  dict_get A u = Some ra -> dict_get B u = Some rb ->
  In r (performance s) -> username r = u ->
  trades r = size (set_xor (symbols (holdings ra)) (symbols (holdings rb))) /\
  trades r = trade_count_spec (holdings ra) (holdings rb) /\
  ((forall x, In x (map symbol (holdings ra)) <->
              In x (map symbol (holdings rb))) -> trades r = 0%nat).
Proof.
  intros Hs Ha Hb Hin Hu.
  destruct (performance_In A B s Hs r Hin) as (p & c & Hp & Hc & Hr).
  rewrite Hu, Ha in Hp. rewrite Hu, Hb in Hc.
  injection Hp as <-. injection Hc as <-.
  apply compare_user_Ok in Hr as (fa & fb & _ & _ & _ & ->). cbn.
  split; [|split].
  - f_equal. unfold set_xor. apply union_comm_L.
  - apply size_set_xor_spec.
  - apply size_set_xor_same.
Qed.

(** C7: a username appears in the performance list of the summary if and
    only if it is a key of both the baseline and the current snapshot; a user
    of one snapshot only contributes no entry. *)
Theorem C7_compared_users (A B : Snapshot) (s : DailySummary) (u : string) :
  calculate_daily_performance A B = Ok s ->
  (In u (map username (performance s)) <->
   In u (keys A) /\ In u (keys B)).
Proof. intros Hs. apply performance_names, Hs. Qed.

End AggregationClaims.

(** ** The extremes tracked by the loop *)

Section Extremes.

Context {builtins : PyBuiltins}.

Lemma fold_update_snoc (rs : list PerformanceRecord) (r : PerformanceRecord)
    (st : LoopState) :
  fold_left update (rs ++ [r]) st = update (fold_left update rs st) r.
Proof. rewrite fold_left_app. reflexivity. Qed.

(** [biggest_gain] is the sentinel as long as no entry is above 0, and from
    then on an entry that no entry seen so far exceeds. *)
Lemma fold_update_gain (rs : list PerformanceRecord) :
  let g := st_biggest_gain (fold_left update rs initial_state) in
  (g = sentinel /\
   forall r, In r rs -> PyFloat.ltb PyFloat.zero (change_percent r) = false) \/
  (exists r, In r rs /\ g = extreme_of r /\
     PyFloat.ltb PyFloat.zero (change_percent r) = true /\
     forall r', In r' rs ->
       PyFloat.ltb (change_percent r) (change_percent r') = false).
Proof.
  induction rs as [|r0 rs IH] using rev_ind; cbn zeta.
  - left. split; [reflexivity|]. intros r [].
  - rewrite fold_update_snoc. cbn [update st_biggest_gain].
    set (g := st_biggest_gain (fold_left update rs initial_state)) in *.
    destruct (PyFloat.ltb (percent g) (change_percent r0)) eqn:E.
    + right. exists r0. split; [apply in_or_app; right; left; reflexivity|].
      split; [reflexivity|].
      destruct IH as [[Hg Hall]|(r & Hin & Hg & Hpos & Hmax)].
      * rewrite Hg in E. cbn in E. split; [exact E|].
        intros r' [Hr'|[<-|[]]]%in_app_or; [|apply ltb_irrefl].
        destruct (PyFloat.ltb (change_percent r0) (change_percent r')) eqn:E';
          [|reflexivity].
        rewrite <- (Hall r' Hr'). symmetry.
        eapply ltb_trans; eassumption.
      * rewrite Hg in E. cbn in E.
        split; [eapply ltb_trans; eassumption|].
        intros r' [Hr'|[<-|[]]]%in_app_or; [|apply ltb_irrefl].
        destruct (PyFloat.ltb (change_percent r0) (change_percent r')) eqn:E';
          [|reflexivity].
        rewrite <- (Hmax r' Hr'). symmetry.
        eapply ltb_trans; eassumption.
    + destruct IH as [[Hg Hall]|(r & Hin & Hg & Hpos & Hmax)].
      * left. split; [exact Hg|].
        intros r' [Hr'|[<-|[]]]%in_app_or; [apply Hall, Hr'|].
        rewrite Hg in E. exact E.
      * right. exists r. split; [apply in_or_app; left; exact Hin|].
        split; [exact Hg|]. split; [exact Hpos|].
        intros r' [Hr'|[<-|[]]]%in_app_or; [apply Hmax, Hr'|].
        rewrite Hg in E. exact E.
Qed.

(** Symmetrically for [biggest_loss] and the entries below 0. *)
Lemma fold_update_loss (rs : list PerformanceRecord) :
  let g := st_biggest_loss (fold_left update rs initial_state) in
  (g = sentinel /\
   forall r, In r rs -> PyFloat.ltb (change_percent r) PyFloat.zero = false) \/
  (exists r, In r rs /\ g = extreme_of r /\
     PyFloat.ltb (change_percent r) PyFloat.zero = true /\
     forall r', In r' rs ->
       PyFloat.ltb (change_percent r') (change_percent r) = false).
Proof.
  induction rs as [|r0 rs IH] using rev_ind; cbn zeta.
  - left. split; [reflexivity|]. intros r [].
  - rewrite fold_update_snoc. cbn [update st_biggest_loss].
    set (g := st_biggest_loss (fold_left update rs initial_state)) in *.
    destruct (PyFloat.ltb (change_percent r0) (percent g)) eqn:E.
    + right. exists r0. split; [apply in_or_app; right; left; reflexivity|].
      split; [reflexivity|].
      destruct IH as [[Hg Hall]|(r & Hin & Hg & Hneg & Hmin)].
      * rewrite Hg in E. cbn in E. split; [exact E|].
        intros r' [Hr'|[<-|[]]]%in_app_or; [|apply ltb_irrefl].
        destruct (PyFloat.ltb (change_percent r') (change_percent r0)) eqn:E';
          [|reflexivity].
        rewrite <- (Hall r' Hr'). symmetry.
        eapply ltb_trans; eassumption.
      * rewrite Hg in E. cbn in E.
        split; [eapply ltb_trans; eassumption|].
        intros r' [Hr'|[<-|[]]]%in_app_or; [|apply ltb_irrefl].
        destruct (PyFloat.ltb (change_percent r') (change_percent r0)) eqn:E';
          [|reflexivity].
        rewrite <- (Hmin r' Hr'). symmetry.
        eapply ltb_trans; eassumption.
    + destruct IH as [[Hg Hall]|(r & Hin & Hg & Hneg & Hmin)].
      * left. split; [exact Hg|].
        intros r' [Hr'|[<-|[]]]%in_app_or; [apply Hall, Hr'|].
        rewrite Hg in E. exact E.
      * right. exists r. split; [apply in_or_app; left; exact Hin|].
        split; [exact Hg|]. split; [exact Hneg|].
        intros r' [Hr'|[<-|[]]]%in_app_or; [apply Hmin, Hr'|].
        rewrite Hg in E. exact E.
Qed.

End Extremes.

(** ** Exceptions of the aggregation *)

Section Failures.

Context {builtins : PyBuiltins}.

Lemma py_float_Raise (v : JVal) (e : PyExc) :
  py_float v = Raise e -> is_conversion_error e = true.
Proof.
  destruct v as [|z|f|s]; cbn.
  - intros [= <-]. reflexivity.
  - destruct (PyFloat.is_inf (PyFloat.of_Z z)); [|discriminate].
    intros [= <-]. reflexivity.
  - discriminate.
  - destruct (float_of_str s); [discriminate|]. intros [= <-]. reflexivity.
Qed.

(** The three ways an iteration can fail, in the order the body meets them. *)
Lemma compare_user_Raise (u : string) (p c : UserRecord) (e : PyExc) :
  compare_user u p c = Raise e ->
  py_float (balance p) = Raise e \/
  (exists fp, py_float (balance p) = Ok fp /\
              py_float (balance c) = Raise e) \/
  (exists fp fc, py_float (balance p) = Ok fp /\
                 py_float (balance c) = Ok fc /\
                 PyFloat.is_zero fp = true /\ e = ZeroDivisionError).
Proof.
  unfold compare_user, py_truediv.
  destruct (py_float (balance p)) as [fp|e1]; cbn; [|intros [= <-]; auto].
  destruct (py_float (balance c)) as [fc|e2]; cbn;
    [|intros [= <-]; right; left; eauto].
  destruct (PyFloat.is_zero fp) eqn:Hz; cbn; [|discriminate].
  intros [= <-]. right. right. exists fp, fc. auto.
Qed.


Lemma compare_user_not_numeric (u : string) (p c : UserRecord) :
  raises (py_float (balance p)) \/ raises (py_float (balance c)) ->
  raises (compare_user u p c).
Proof.
  unfold compare_user. intros [H|H].
  - apply raises_bind_l, H.
  - apply raises_bind_r. intros fp. apply raises_bind_l, H.
Qed.

Lemma calculate_Raise (A B : Snapshot) (e : PyExc) :
  calculate_daily_performance A B = Raise e ->
  exists u p c, dict_get A u = Some p /\ dict_get B u = Some c /\
                compare_user u p c = Raise e.
Proof.
  rewrite calculate_eq. intros [H|(rs & _ & [=])]%bind_Raise.
  apply records_Raise in H as (u & p & c & _ & ? & ? & ?); [|auto].
  exists u, p, c. auto.
Qed.

End Failures.

Section AggregationClaims2.

Context {builtins : PyBuiltins}.

(** C3 (amended): [biggest_gain] and [biggest_loss] start from the sentinel
    with empty username and percent 0.  When some compared user has a
    [change_percent] strictly above 0, [biggest_gain] is the username, amount
    and percent of a compared user whose [change_percent] no compared user
    exceeds; otherwise it is still the sentinel.  Symmetrically,
    [biggest_loss] is an entry that no compared user is below when some
    [change_percent] is strictly below 0, and the sentinel otherwise. *)
Theorem C3_extremes (A B : Snapshot) (s : DailySummary) :
  calculate_daily_performance A B = Ok s ->
  ((exists r, In r (performance s) /\
              PyFloat.ltb PyFloat.zero (change_percent r) = true) ->
   exists r, In r (performance s) /\ biggest_gain s = extreme_of r /\
     forall r', In r' (performance s) ->
       PyFloat.ltb (change_percent r) (change_percent r') = false) /\
  ((forall r, In r (performance s) ->
              PyFloat.ltb PyFloat.zero (change_percent r) = false) ->
   biggest_gain s = sentinel) /\
  ((exists r, In r (performance s) /\
              PyFloat.ltb (change_percent r) PyFloat.zero = true) ->
   exists r, In r (performance s) /\ biggest_loss s = extreme_of r /\
     forall r', In r' (performance s) ->
       PyFloat.ltb (change_percent r') (change_percent r) = false) /\
  ((forall r, In r (performance s) ->
              PyFloat.ltb (change_percent r) PyFloat.zero = false) ->
   biggest_loss s = sentinel).
Proof.
  intros (rs & _ & ->)%calculate_Ok. cbn.
  assert (forall r, In r (sorted_reverse by_percent rs) <-> In r rs) as Hin
    by (intros r; apply sorted_reverse_In).
  pose proof (fold_update_gain rs) as Hg.
  pose proof (fold_update_loss rs) as Hl. cbn zeta in Hg, Hl.
  repeat split.
  - intros (r & Hr & Hpos). apply Hin in Hr.
    destruct Hg as [[_ Hall]|(r1 & Hr1 & Hg & _ & Hmax)].
    + rewrite (Hall r Hr) in Hpos. discriminate.
    + exists r1. split; [apply Hin, Hr1|]. split; [exact Hg|].
      intros r' Hr'. apply Hmax, Hin, Hr'.
  - intros Hall. destruct Hg as [[Hg _]|(r1 & Hr1 & _ & Hpos & _)];
      [exact Hg|].
    rewrite (Hall r1) in Hpos by (apply Hin, Hr1). discriminate.
  - intros (r & Hr & Hneg). apply Hin in Hr.
    destruct Hl as [[_ Hall]|(r1 & Hr1 & Hl & _ & Hmin)].
    + rewrite (Hall r Hr) in Hneg. discriminate.
    + exists r1. split; [apply Hin, Hr1|]. split; [exact Hl|].
      intros r' Hr'. apply Hmin, Hin, Hr'.
  - intros Hall. destruct Hl as [[Hl _]|(r1 & Hr1 & _ & Hneg & _)];
      [exact Hl|].
    rewrite (Hall r1) in Hneg by (apply Hin, Hr1). discriminate.
Qed.


(** NaN comes from infinite balances only: on finite ones every
    [change_percent] of the summary is a number. *)
Lemma finite_balances_not_nan (A B : Snapshot) (s : DailySummary) :
  calculate_daily_performance A B = Ok s -> finite_balances A B ->
  Forall (fun r => PyFloat.is_nan (change_percent r) = false)
         (performance s).
Proof.
  intros Hs Hfin. apply List.Forall_forall. intros r Hr.
  destruct (performance_In A B s Hs r Hr) as (p & c & Hp & Hc & Hcmp).
  apply compare_user_Ok in Hcmp as (fp & fc & Hfp & Hfc & Hz & ->). cbn.
  apply percent_not_nan; [| |exact Hz].
  - apply (Hfin (username r) p fp); auto.
  - apply (Hfin (username r) c fc); auto.
Qed.


End AggregationClaims2.

Section AggregationClaims3.

Context {builtins : PyBuiltins}.

Lemma records_app (A B : Snapshot) (l1 l2 : list string) :
  records A B (l1 ++ l2) =
  rs1 ← records A B l1; rs2 ← records A B l2; Ok (rs1 ++ rs2).
Proof.
  induction l1 as [|u l1 IH]; cbn.
  - destruct (records A B l2); reflexivity.
  - destruct (dict_get A u) as [p|]; [|exact IH].
    destruct (dict_get B u) as [c|]; [|reflexivity].
    destruct (compare_user u p c) as [r|]; [|reflexivity].
    cbn. rewrite IH.
    destruct (records A B l1) as [rs1|]; [|reflexivity].
    cbn. destruct (records A B l2); reflexivity.
Qed.

(** C5 (amended): when a user present in both snapshots has a balance that
    [float()] rejects, in either snapshot, the whole aggregation fails and
    returns no summary at all, so the user is not dropped from a partial
    summary; the exception raised is one of [float()] (a data-format error)
    provided no user earlier in the key order of the current snapshot has a
    baseline balance equal to 0. *)
Theorem C5_not_numeric (A B : Snapshot) (u : string) (ra rb : UserRecord) :
  dict_get A u = Some ra -> dict_get B u = Some rb ->
  raises (py_float (balance ra)) \/ raises (py_float (balance rb)) ->
  raises (calculate_daily_performance A B) /\
  (forall s, calculate_daily_performance A B <> Ok s) /\
  ((forall pre post u' p z,
      keys B = pre ++ u :: post -> In u' pre ->
      dict_get A u' = Some p -> py_float (balance p) = Ok z ->
      PyFloat.is_zero z = false) ->
   exists e, calculate_daily_performance A B = Raise e /\
             is_conversion_error e = true).
Proof.
  intros Ha Hb Hbad.
  assert (raises (compare_user u ra rb)) as Hu
    by (apply compare_user_not_numeric, Hbad).
  assert (In u (keys B)) as Hin by (eapply dict_get_In, Hb).
  assert (raises (calculate_daily_performance A B)) as Hraises.
  { apply calculate_raises.
    apply (records_raises A B (keys B) u ra rb); assumption. }
  split; [exact Hraises|]. split.
  - intros s. apply raises_not_Ok, Hraises.
  - intros Hnz. apply in_split in Hin as (pre & post & Hkeys).
    specialize (Hnz pre post).
    rewrite calculate_eq, Hkeys, records_app.
    destruct (records A B pre) as [rs1|e] eqn:Hpre; cbn.
    + rewrite Ha, Hb. destruct Hu as [e He]. rewrite He. cbn.
      exists e. split; [reflexivity|].
      apply compare_user_Raise in He
        as [He|[(fp & _ & He)|(fp & fc & Hfp & Hfc & _ & _)]].
      * eapply py_float_Raise, He.
      * eapply py_float_Raise, He.
      * destruct Hbad as [[e' He']|[e' He']]; congruence.
    + exists e. split; [reflexivity|].
      apply records_Raise in Hpre as (u' & p & c & Hu' & Hp & Hc & He).
      * apply compare_user_Raise in He
          as [He|[(fp & _ & He)|(fp & fc & Hfp & _ & Hz & _)]].
        -- eapply py_float_Raise, He.
        -- eapply py_float_Raise, He.
        -- rewrite (Hnz u' p fp Hkeys Hu' Hp Hfp) in Hz. discriminate.
      * intros u' Hu'. rewrite Hkeys. apply in_or_app. left. exact Hu'.
Qed.

End AggregationClaims3.

(** ** [get_user_info] *)

Section UserInfo.

Context {builtins : PyBuiltins}.


Lemma to_numeric_idem (v : JVal) : to_numeric (to_numeric v) = to_numeric v.
Proof.
  destruct v as [|z|f|s]; cbn; try reflexivity.
  destruct (numeric_of_str s); reflexivity.
Qed.

Lemma info_of_coerced (r : Row) : info_of (set_money to_numeric r) = info_of r.
Proof. unfold info_of. cbn. rewrite to_numeric_idem. reflexivity. Qed.

Lemma get_user_info_frame (df : DataFrame) (uname : string) :
  fst (get_user_info df uname) = map (set_money to_numeric) df.
Proof.
  unfold get_user_info.
  destruct (List.filter _ (map (set_money to_numeric) df)); reflexivity.
Qed.

(** The answer is read in the first row of the name, after the column has
    been coerced. *)
Lemma get_user_info_answer (df : DataFrame) (uname : string) :
  snd (get_user_info df uname) =
  match List.filter (fun r => String.eqb (account_name r) uname) df with
  | [] => None
  | r :: _ => Some (info_of r)
  end.
Proof.
  transitivity
    (match List.filter (fun r => String.eqb (account_name r) uname)
             (map (set_money to_numeric) df) with
     | [] => None
     | r :: _ =>
         Some (account_name r, money r,
               String.concat newline (map format_holding (stocks r)))
     end).
  { unfold get_user_info.
    destruct (List.filter _ (map (set_money to_numeric) df)); reflexivity. }
  induction df as [|r df IH]; [reflexivity|].
  cbn [map List.filter set_money account_name].
  destruct (String.eqb (account_name r) uname); [reflexivity|exact IH].
Qed.


Lemma filter_nil_iff {A} (f : A -> bool) (l : list A) :
  List.filter f l = [] <-> forall x, In x l -> f x = false.
Proof.
  induction l as [|y l IH]; cbn.
  - split; [intros _ x []|reflexivity].
  - destruct (f y) eqn:E; split.
    + discriminate.
    + intros H. rewrite (H y) in E by (left; reflexivity). discriminate.
    + intros H x [<-|Hx]; [exact E|]. apply IH; assumption.
    + intros H. apply IH. intros x Hx. apply H. right. exact Hx.
Qed.



End UserInfo.

(** ** [leaderboard] *)

Section Leaderboard.

Context {builtins : PyBuiltins}.

Lemma filter_unique (df : DataFrame) (row : Row) :
  List.NoDup (map account_name df) -> In row df ->
  List.filter (fun r => String.eqb (account_name r) (account_name row)) df =
  [row].
Proof.
  induction df as [|r df IH]; cbn; [intros _ []|].
  intros Hnd Hin. apply List.NoDup_cons_iff in Hnd as [Hr Hnd].
  destruct Hin as [->|Hin].
  - rewrite String.eqb_refl. f_equal. apply filter_nil_iff.
    intros x Hx. apply String.eqb_neq. intros Heq. apply Hr.
    rewrite <- Heq. apply in_map, Hx.
  - destruct (String.eqb_spec (account_name r) (account_name row)) as [E|E].
    + destruct Hr. rewrite E. apply in_map, Hin.
    + apply IH; assumption.
Qed.

Lemma get_user_info_row (df : DataFrame) (row : Row) :
  List.NoDup (map account_name df) -> In row df ->
  get_user_info df (account_name row) =
  (map (set_money to_numeric) df, Some (info_of row)).
Proof.
  intros Hnd Hin.
  rewrite (surjective_pairing (get_user_info df (account_name row))).
  rewrite get_user_info_frame, get_user_info_answer, filter_unique
    by assumption.
  reflexivity.
Qed.

Lemma names_coerced (df : DataFrame) :
  map account_name (map (set_money to_numeric) df) = map account_name df.
Proof. rewrite map_map. reflexivity. Qed.

Lemma skipn_nth_error {A} (l : list A) (i : nat) (x : A) :
  nth_error l i = Some x -> skipn i l = x :: skipn (S i) l.
Proof.
  revert l. induction i as [|i IH]; intros [|y l]; cbn; try discriminate.
  - intros [= ->]. reflexivity.
  - apply IH.
Qed.

(** With distinct account names, the loop lists the rows at positions
    [i .. i+n-1] of the frame, whatever the earlier calls did to it. *)
Lemma leaderboard_loop_rows (n : nat) (df : DataFrame) (i : nat) :
  List.NoDup (map account_name df) -> (i + n <= length df)%nat ->
  leaderboard_loop df i n = Ok (map info_of (firstn n (skipn i df))).
Proof.
  revert df i. induction n as [|n IH]; intros df i Hnd Hlen; [reflexivity|].
  cbn [leaderboard_loop].
  destruct (nth_error df i) as [row|] eqn:Hrow.
  2:{ apply nth_error_None in Hrow. lia. }
  rewrite get_user_info_row by (eauto using nth_error_In).
  rewrite IH; [|rewrite names_coerced; exact Hnd|rewrite length_map; lia].
  cbn. rewrite (skipn_nth_error _ _ _ Hrow). cbn [firstn map]. do 2 f_equal.
  rewrite skipn_map, firstn_map, map_map.
  apply map_ext, info_of_coerced.
Qed.

(** *** The sorted frame *)

Lemma filter_partition_perm {A} (f : A -> bool) (l : list A) :
  Permutation (List.filter (fun x => negb (f x)) l ++ List.filter f l) l.
Proof.
  induction l as [|x l IH]; cbn; [reflexivity|].
  destruct (f x); cbn.
  - rewrite <- Permutation_middle. constructor. exact IH.
  - constructor. exact IH.
Qed.

Lemma sort_values_perm (df rows : DataFrame) :
  sort_values df = Ok rows -> Permutation rows df.
Proof.
  unfold sort_values. destruct (comparable _); [|discriminate].
  intros [= <-]. rewrite sorted_reverse_perm. apply filter_partition_perm.
Qed.


Lemma StronglySorted_weaken {A} (P : A -> Prop) (R R' : A -> A -> Prop)
    (l : list A) :
  (forall a b, P a -> P b -> R a b -> R' a b) ->
  Forall P l -> StronglySorted R l -> StronglySorted R' l.
Proof.
  intros Himp HP Hs. induction Hs as [|x l Hs IH Hall]; [constructor|].
  apply List.Forall_cons_iff in HP as [HPx HPl].
  constructor; [apply IH, HPl|].
  rewrite List.Forall_forall in *. intros y Hy. apply Himp; auto.
Qed.




End Leaderboard.

Section LeaderboardClaim.

Context {builtins : PyBuiltins}.

Lemma from_dict_Ok (data : Snapshot) :
  data <> [] -> from_dict data = Ok (infer_money (map row_of data)).
Proof. destruct data; [congruence|reflexivity]. Qed.

Lemma infer_money_names (df : DataFrame) :
  map account_name (infer_money df) = map account_name df.
Proof.
  unfold infer_money.
  destruct (forallb _ df); [reflexivity|].
  destruct (forallb _ df); [|reflexivity].
  rewrite map_map. reflexivity.
Qed.


Lemma clamp_count_range (count : Z) : 1 <= clamp_count count <= 10.
Proof. unfold clamp_count. lia. Qed.


End LeaderboardClaim.

(** * The claims on the worked inputs *)

Section Worked.

Import Scenario.
Local Open Scope string_scope.
#[local] Existing Instance decimal_builtins.

Lemma C1_change_amount_witness :
  exists s, calculate_daily_performance baseline current = Ok s /\
  exists fa fb,
    py_float (JInt 1000) = Ok fa /\ py_float (JInt 1200) = Ok fb /\
    (exists r, In r (performance s) /\ username r = "alice") /\
    (forall r, In r (performance s) -> username r = "alice" ->
               change_amount r = PyFloat.sub fb fa).
Proof.
  eexists. split; [vm_compute; reflexivity|].
  eapply (C1_change_amount baseline current _ "alice"
           (user (JInt 1000) [aapl]) (user (JInt 1200) [aapl; tsla]));
    vm_compute; reflexivity.
Defined.

Lemma C2_trade_count_witness :
  exists s r, calculate_daily_performance baseline current = Ok s /\
    In r (performance s) /\ username r = "bob" /\
    trades r = size (set_xor (symbols [aapl]) (symbols [aapl_more])) /\
    trades r = trade_count_spec [aapl] [aapl_more] /\
    ((forall x, In x (map symbol [aapl]) <-> In x (map symbol [aapl_more])) ->
     trades r = 0%nat).
Proof.
  eexists. eexists. split; [vm_compute; reflexivity|].
  split; [right; left; reflexivity|]. split; [reflexivity|].
  eapply (C2_trade_count baseline current _ "bob"
           (user (JStr "2000") [aapl]) (user (JInt 1500) [aapl_more]));
    try (vm_compute; reflexivity).
  right. left. reflexivity.
Defined.

Lemma C7_compared_users_witness :
  exists s, calculate_daily_performance baseline current = Ok s /\
    (In "carol" (map username (performance s)) <->
     In "carol" (keys baseline) /\ In "carol" (keys current)).
Proof.
  eexists. split; [vm_compute; reflexivity|].
  apply (C7_compared_users baseline current). vm_compute. reflexivity.
Defined.


Lemma C3_extremes_witness :
  exists s, calculate_daily_performance baseline current = Ok s /\
    ex_username (biggest_gain s) = "alice" /\
    ex_username (biggest_loss s) = "bob" /\
    ((exists r, In r (performance s) /\
                PyFloat.ltb PyFloat.zero (change_percent r) = true) ->
     exists r, In r (performance s) /\ biggest_gain s = extreme_of r /\
       forall r', In r' (performance s) ->
         PyFloat.ltb (change_percent r) (change_percent r') = false).
Proof.
  eexists. split; [vm_compute; reflexivity|].
  split; [reflexivity|]. split; [reflexivity|].
  apply (C3_extremes baseline current). vm_compute. reflexivity.
Defined.

(** C3 as stated fails on a day on which nothing moved: alice's change is
    0 percent, which is not negative, and [biggest_gain] is still the
    sentinel with the empty username; it is not the entry of greatest
    [change_percent] either. *)
Lemma C3_counterexample :
  exists s r,
    calculate_daily_performance flat_day flat_day = Ok s /\
    performance s = [r] /\ username r = "alice" /\
    change_percent r = PyFloat.zero /\
    PyFloat.ltb (change_percent r) PyFloat.zero = false /\
    biggest_gain s = sentinel /\
    ex_username (biggest_gain s) = "" /\
    biggest_gain s <> extreme_of r.
Proof.
  eexists. eexists. split; [vm_compute; reflexivity|].
  repeat split; discriminate.
Defined.


Lemma C5_not_numeric_witness :
  raises (calculate_daily_performance null_then_zero both_funded) /\
  (forall s, calculate_daily_performance null_then_zero both_funded <> Ok s) /\
  ((forall pre post u' p z,
      keys both_funded = (pre ++ "alice" :: post)%list -> In u' pre ->
      dict_get null_then_zero u' = Some p -> py_float (balance p) = Ok z ->
      PyFloat.is_zero z = false) ->
   exists e, calculate_daily_performance null_then_zero both_funded = Raise e /\
             is_conversion_error e = true).
Proof.
  apply (C5_not_numeric null_then_zero both_funded "alice"
           (user JNull []) (user (JInt 1) [])); try reflexivity.
  left. exists TypeError. reflexivity.
Defined.

(** C5 as stated fails when a user earlier in the key order has an empty
    baseline account: bob's baseline balance is [None], which is not
    numeric, and the aggregation fails with the division error of alice,
    which is not a data-format error. *)
Lemma C5_counterexample :
  dict_get zero_then_null "bob" = Some (user JNull []) /\
  dict_get both_funded "bob" = Some (user (JInt 2) []) /\
  py_float (balance (user JNull [])) = Raise TypeError /\
  calculate_daily_performance zero_then_null both_funded =
    Raise ZeroDivisionError /\
  is_conversion_error ZeroDivisionError = false.
Proof. repeat split. Defined.



(** The query fails too when the balances cannot be compared with each
    other: bob's is a string, the others are integers. *)
Example leaderboard_mixed_balances : leaderboard baseline 1 = Raise TypeError.
Proof. reflexivity. Qed.

(** The scenario of the specification: alice's change is 200, that is 20
    percent, with one trade. *)
Example scenario_alice :
  compare_user "alice" (user (JInt 1000) [aapl])
               (user (JInt 1200) [aapl; tsla]) =
  Ok {| username := "alice"; change_amount := PyFloat.of_Z 200;
        change_percent := PyFloat.of_Z 20; trades := 1 |}.
Proof. vm_compute. reflexivity. Qed.

Example clamp_count_scenario : clamp_count 0 = 1 /\ clamp_count 50 = 10.
Proof. split; reflexivity. Qed.

(** A lookup that finds nobody still rewrites the balance column. *)
Example lookup_miss_rewrites :
  snd (get_user_info (map row_of baseline) "zed") = None /\
  fst (get_user_info (map row_of baseline) "zed") <> map row_of baseline.
Proof. split; [reflexivity|discriminate]. Qed.

End Worked.

(** * Further properties of [calculate_daily_performance] *)

Section MoreAggregation.

Context {builtins : PyBuiltins}.

Lemma fold_update_total (rs : list PerformanceRecord) (st : LoopState) :
  st_total_trades (fold_left update rs st) =
  (st_total_trades st + list_sum (map trades rs))%nat.
Proof.
  revert st. induction rs as [|r rs IH]; intros st.
  - cbn. lia.
  - cbn [fold_left map]. rewrite IH. unfold list_sum. cbn. lia.
Qed.

Lemma list_sum_perm (l l' : list nat) :
  Permutation l l' -> list_sum l = list_sum l'.
Proof.
  unfold list_sum.
  induction 1 as [|x l l' _ IH|x y l|l l' l'' _ IH1 _ IH2]; cbn; lia.
Qed.

Lemma total_trades_sum_aux (rs : list PerformanceRecord) (s : DailySummary) :
  s = summary_of rs -> total_trades s = list_sum (map trades rs).
Proof. intros ->. cbn. rewrite fold_update_total. reflexivity. Qed.

(** X1: the total the summary announces is the sum of the trade counts of
    the entries of its performance list. *)
Theorem total_trades_is_sum (A B : Snapshot) (s : DailySummary) :
  calculate_daily_performance A B = Ok s ->
  total_trades s = list_sum (map trades (performance s)).
Proof.
  intros (rs & _ & ->)%calculate_Ok. cbn.
  rewrite fold_update_total. cbn.
  apply list_sum_perm, Permutation_map. symmetry. apply sorted_reverse_perm.
Qed.

Lemma StronglySorted_app_inv {X} (R : X -> X -> Prop) (l1 l2 : list X) :
  StronglySorted R (l1 ++ l2) ->
  StronglySorted R l1 /\ StronglySorted R l2 /\
  forall a b, In a l1 -> In b l2 -> R a b.
Proof.
  induction l1 as [|x l1 IH]; cbn; intros Hs.
  - split; [constructor|]. split; [exact Hs|]. intros a b [].
  - apply StronglySorted_inv in Hs as [Hs Hx].
    destruct (IH Hs) as (H1 & H2 & H12).
    rewrite List.Forall_forall in Hx.
    split; [|split; [exact H2|]].
    + constructor; [exact H1|]. apply List.Forall_forall. intros y Hy.
      apply Hx, in_or_app. left. exact Hy.
    + intros a b [<-|Ha] Hb.
      * apply Hx, in_or_app. right. exact Hb.
      * apply H12; assumption.
Qed.

Lemma sorted_by_trades (rs : list PerformanceRecord) :
  StronglySorted (fun a b => (trades b <= trades a)%nat)
                 (sorted_reverse by_trades rs).
Proof.
  apply (StronglySorted_weaken (fun _ => True)
           (fun a b => by_trades a b = false)).
  - intros a b _ _. unfold by_trades. rewrite Nat.ltb_ge. trivial.
  - apply List.Forall_forall. trivial.
  - apply (sorted_reverse_sorted by_trades (fun _ => True)).
    + intros a b _ _. unfold by_trades. rewrite Nat.ltb_lt, Nat.ltb_ge. lia.
    + intros a b c _ _ _. unfold by_trades. rewrite !Nat.ltb_ge. lia.
    + apply List.Forall_forall. trivial.
Qed.

(** X2: [most_active] holds min(3, n) of the n entries of the summary, in
    descending order of trade count, and no entry left out of it has more
    trades than one it holds. *)
Theorem most_active_top_three (A B : Snapshot) (s : DailySummary) :
  calculate_daily_performance A B = Ok s ->
  length (most_active s) = Nat.min 3 (length (performance s)) /\
  StronglySorted (fun a b => (trades b <= trades a)%nat) (most_active s) /\
  exists rest,
    Permutation (most_active s ++ rest) (performance s) /\
    forall a b, In a (most_active s) -> In b rest ->
                (trades b <= trades a)%nat.
Proof.
  intros (rs & _ & ->)%calculate_Ok. cbn.
  pose proof (sorted_by_trades rs) as Hs.
  rewrite <- (firstn_skipn 3 (sorted_reverse by_trades rs)) in Hs.
  apply StronglySorted_app_inv in Hs as (H1 & _ & H12).
  split; [|split; [exact H1|]].
  - rewrite length_firstn.
    rewrite (Permutation_length (sorted_reverse_perm by_trades rs)).
    rewrite (Permutation_length (sorted_reverse_perm by_percent rs)).
    reflexivity.
  - exists (skipn 3 (sorted_reverse by_trades rs)). split; [|exact H12].
    rewrite firstn_skipn.
    rewrite (sorted_reverse_perm by_trades rs).
    symmetry. apply sorted_reverse_perm.
Qed.

(** X3: the aggregation returns a summary exactly when, for every user
    present in both snapshots, both balances convert to floats and the
    baseline is not zero; otherwise it raises. *)
Theorem succeeds_iff_every_user_computes (A B : Snapshot) :
  (exists s, calculate_daily_performance A B = Ok s) <->
  (forall u ra rb,
     dict_get A u = Some ra -> dict_get B u = Some rb ->
     exists fa fb,
       py_float (balance ra) = Ok fa /\ py_float (balance rb) = Ok fb /\
       PyFloat.is_zero fa = false).
Proof.
  split.
  - intros [s Hs] u ra rb Ha Hb.
    destruct (performance_of_user A B s Hs u ra rb Ha Hb) as (r & Hin & Hu).
    destruct (performance_In A B s Hs r Hin) as (p & c & Hp & Hc & Hr).
    rewrite Hu, Ha in Hp. rewrite Hu, Hb in Hc.
    injection Hp as <-. injection Hc as <-.
    apply compare_user_Ok in Hr as (fa & fb & ? & ? & ? & _).
    exists fa, fb. auto.
  - intros Hall.
    destruct (calculate_daily_performance A B) as [s|e] eqn:E; [eauto|].
    apply calculate_Raise in E as (u & p & c & Hp & Hc & Hr).
    destruct (Hall u p c Hp Hc) as (fa & fb & Hfa & Hfb & Hz).
    apply compare_user_Raise in Hr
      as [Hr|[(fp & _ & Hr)|(fp & fc & Hfp & _ & Hz' & _)]]; congruence.
Qed.

End MoreAggregation.

Section MoreAggregation2.

Context {builtins : PyBuiltins}.

(** A user "computes" when the loop body raises nothing for it. *)
Lemma records_all_compute (A B : Snapshot) (unames : list string) :
  (forall u, In u unames -> In u (keys B)) ->
  (forall u p c, In u unames ->
     dict_get A u = Some p -> dict_get B u = Some c ->
     exists fp fc,
       py_float (balance p) = Ok fp /\ py_float (balance c) = Ok fc /\
       PyFloat.is_zero fp = false) ->
  exists rs, records A B unames = Ok rs.
Proof.
  induction unames as [|u us IH]; intros Hsub Hall; cbn; [eauto|].
  destruct IH as [rs Hrs].
  { intros u' H. apply Hsub. right. exact H. }
  { intros u' p c H. apply Hall. right. exact H. }
  destruct (dict_get A u) as [p|] eqn:Ep; [|eauto].
  destruct (In_dict_get B u) as [c Ec]; [apply Hsub; left; reflexivity|].
  rewrite Ec.
  destruct (Hall u p c) as (fp & fc & Hfp & Hfc & Hz); auto; [left; reflexivity|].
  assert (exists r, compare_user u p c = Ok r) as [r ->]
    by (eexists; apply compare_user_Ok; eauto 10).
  cbn. rewrite Hrs. cbn. eauto.
Qed.

(** X4: the exception a caller sees is that of the first user, in the key
    order of the current snapshot, for which the loop body raises; for that
    user the baseline balance is converted first, then the current balance,
    and the division by a zero baseline comes last. *)
Theorem first_failure_wins (A B : Snapshot) (pre post : list string)
    (u : string) (ra rb : UserRecord) :
  keys B = pre ++ u :: post ->
  (forall u' p c, In u' pre ->
     dict_get A u' = Some p -> dict_get B u' = Some c ->
     exists fp fc,
       py_float (balance p) = Ok fp /\ py_float (balance c) = Ok fc /\
       PyFloat.is_zero fp = false) ->
  dict_get A u = Some ra -> dict_get B u = Some rb ->
  (forall e, py_float (balance ra) = Raise e ->
             calculate_daily_performance A B = Raise e) /\
  (forall fa e, py_float (balance ra) = Ok fa ->
                py_float (balance rb) = Raise e ->
                calculate_daily_performance A B = Raise e) /\
  (forall fa fb, py_float (balance ra) = Ok fa ->
                 py_float (balance rb) = Ok fb ->
                 PyFloat.is_zero fa = true ->
                 calculate_daily_performance A B = Raise ZeroDivisionError).
Proof.
  intros Hkeys Hpre Ha Hb.
  destruct (records_all_compute A B pre) as [rs1 Hrs1].
  { intros u' H. rewrite Hkeys. apply in_or_app. left. exact H. }
  { exact Hpre. }
  assert (forall e, compare_user u ra rb = Raise e ->
                    calculate_daily_performance A B = Raise e) as Hfail.
  { intros e He. rewrite calculate_eq, Hkeys, records_app, Hrs1. cbn.
    rewrite Ha, Hb, He. reflexivity. }
  repeat split.
  - intros e He. apply Hfail. unfold compare_user. rewrite He. reflexivity.
  - intros fa e Hfa He. apply Hfail. unfold compare_user.
    rewrite Hfa. cbn. rewrite He. reflexivity.
  - intros fa fb Hfa Hfb Hz. apply Hfail. unfold compare_user, py_truediv.
    rewrite Hfa. cbn. rewrite Hfb. cbn. rewrite Hz. reflexivity.
Qed.

(** *** Users of one snapshot only *)

Lemma dict_get_restrict (d : Snapshot) (ks : list string) (k : string) :
  dict_get (restrict d ks) k =
  if existsb (String.eqb k) ks then dict_get d k else None.
Proof.
  unfold restrict. induction d as [|[k' v] d IH]; cbn.
  - destruct (existsb _ ks); reflexivity.
  - destruct (existsb (String.eqb k') ks) eqn:Ek'; cbn.
    + destruct (String.eqb_spec k' k) as [->|Hne].
      * rewrite Ek'. reflexivity.
      * exact IH.
    + destruct (String.eqb_spec k' k) as [->|Hne].
      * rewrite IH, Ek'. reflexivity.
      * exact IH.
Qed.

Lemma keys_restrict (d : Snapshot) (ks : list string) :
  keys (restrict d ks) =
  List.filter (fun k => existsb (String.eqb k) ks) (keys d).
Proof.
  unfold restrict, keys. induction d as [|[k v] d IH]; cbn; [reflexivity|].
  destruct (existsb (String.eqb k) ks); cbn; rewrite IH; reflexivity.
Qed.

Lemma records_ext (A A' B B' : Snapshot) (unames : list string) :
  (forall u, In u unames ->
     dict_get A' u = dict_get A u /\ dict_get B' u = dict_get B u) ->
  records A' B' unames = records A B unames.
Proof.
  induction unames as [|u us IH]; intros H; cbn; [reflexivity|].
  destruct (H u) as [-> ->]; [left; reflexivity|].
  rewrite IH by (intros u' Hu'; apply H; right; exact Hu').
  reflexivity.
Qed.

Lemma records_filter_mem (A B : Snapshot) (unames : list string) :
  records A B (List.filter (dict_mem A) unames) = records A B unames.
Proof.
  induction unames as [|u us IH]; cbn; [reflexivity|].
  unfold dict_mem at 1.
  destruct (dict_get A u) as [p|] eqn:Ep; [|exact IH].
  cbn. rewrite Ep, IH. reflexivity.
Qed.

Lemma existsb_keys_mem (d : Snapshot) (k : string) :
  existsb (String.eqb k) (keys d) = dict_mem d k.
Proof.
  pose proof (existsb_eqb_In k (keys d)) as H1.
  pose proof (dict_mem_true d k) as H2.
  destruct (existsb _ _), (dict_mem d k); try reflexivity.
  - symmetry. apply H2, H1. reflexivity.
  - apply H1, H2. reflexivity.
Qed.

(** X5: users present in one snapshot only have no influence at all: the
    result, summary or exception, is the one computed on the two snapshots
    cut down to their common users. *)
Theorem only_common_users_matter (A B : Snapshot) :
  calculate_daily_performance (restrict A (keys B)) (restrict B (keys A)) =
  calculate_daily_performance A B.
Proof.
  rewrite !calculate_eq. f_equal.
  rewrite keys_restrict.
  rewrite (List.filter_ext _ (dict_mem A)) by (intros k; apply existsb_keys_mem).
  rewrite <- (records_filter_mem A B (keys B)).
  apply records_ext. intros u [Hu HA]%filter_In.
  rewrite !dict_get_restrict.
  rewrite (existsb_keys_mem A u), HA.
  apply dict_mem_true in Hu. rewrite (existsb_keys_mem B u), Hu.
  split; reflexivity.
Qed.

End MoreAggregation2.

Section MoreAggregation3.

Context {builtins : PyBuiltins}.

Lemma sub_self_zero (x : float) :
  PyFloat.is_finite x = true -> PyFloat.is_zero (PyFloat.sub x x) = true.
Proof.
  destruct x as [[]|[]| |sx mx ex]; try discriminate; intros _;
    try reflexivity.
  unfold PyFloat.sub, SFsub. rewrite Z.sub_diag. reflexivity.
Qed.

Lemma div_zero_l (x y : float) :
  PyFloat.is_zero x = true ->
  PyFloat.is_finite y = true -> PyFloat.is_zero y = false ->
  PyFloat.is_zero (PyFloat.div x y) = true.
Proof.
  destruct x as [[]|[]| |sx mx ex], y as [[]|[]| |sy my ey];
    try discriminate; reflexivity.
Qed.

Lemma mul_zero_hundred (x : float) :
  PyFloat.is_zero x = true ->
  PyFloat.is_zero (PyFloat.mul x PyFloat.hundred) = true.
Proof. destruct x as [[]|[]| |sx mx ex]; try discriminate; reflexivity. Qed.

Lemma zero_not_ltb (x : float) :
  PyFloat.is_zero x = true ->
  PyFloat.ltb PyFloat.zero x = false /\ PyFloat.ltb x PyFloat.zero = false.
Proof.
  destruct x as [[]|[]| |sx mx ex]; try discriminate; split; reflexivity.
Qed.

Lemma same_snapshot_summary (S : Snapshot) (s : DailySummary) :
  calculate_daily_performance S S = Ok s -> finite_balances S S ->
  Forall (fun r => PyFloat.is_zero (change_amount r) = true /\
                   PyFloat.is_zero (change_percent r) = true /\
                   trades r = 0%nat) (performance s) /\
  total_trades s = 0%nat /\
  biggest_gain s = sentinel /\ biggest_loss s = sentinel.
Proof.
  intros Hs Hfin.
  assert (Forall (fun r => PyFloat.is_zero (change_amount r) = true /\
                           PyFloat.is_zero (change_percent r) = true /\
                           trades r = 0%nat) (performance s)) as Hall.
  { apply List.Forall_forall. intros r Hr.
    destruct (performance_In S S s Hs r Hr) as (p & c & Hp & Hc & Hcmp).
    rewrite Hp in Hc. injection Hc as <-.
    apply compare_user_Ok in Hcmp as (fp & fc & Hfp & Hfc & Hz & ->). cbn.
    rewrite Hfp in Hfc. injection Hfc as <-.
    assert (PyFloat.is_finite fp = true) as Hf
      by (apply (Hfin (username r) p fp); auto).
    pose proof (sub_self_zero fp Hf) as H0.
    split; [exact H0|]. split.
    - apply mul_zero_hundred, div_zero_l; assumption.
    - apply size_set_xor_same. tauto. }
  split; [exact Hall|].
  rewrite List.Forall_forall in Hall.
  pose proof Hs as (rs & _ & Es)%calculate_Ok.
  assert (forall r, In r rs -> In r (performance s)) as Hin.
  { intros r Hr. rewrite Es. cbn. apply sorted_reverse_In, Hr. }
  split; [|split].
  - rewrite (total_trades_sum_aux rs s Es).
    assert (forall r, In r rs -> trades r = 0%nat) as Ht
      by (intros r Hr; apply Hall, Hin, Hr).
    clear -Ht. induction rs as [|r rs IH]; [reflexivity|].
    cbn. rewrite (Ht r) by (left; reflexivity).
    apply IH. intros r' Hr'. apply Ht. right. exact Hr'.
  - rewrite Es. cbn. destruct (fold_update_gain rs)
      as [[Hg _]|(r & Hr & _ & Hpos & _)]; [exact Hg|].
    destruct (Hall r (Hin r Hr)) as (_ & Hz & _).
    destruct (zero_not_ltb _ Hz) as [H1 _]. congruence.
  - rewrite Es. cbn. destruct (fold_update_loss rs)
      as [[Hg _]|(r & Hr & _ & Hneg & _)]; [exact Hg|].
    destruct (Hall r (Hin r Hr)) as (_ & Hz & _).
    destruct (zero_not_ltb _ Hz) as [_ H1]. congruence.
Qed.

(** X6: comparing a snapshot with itself: when the balances are finite,
    every entry has a zero change, a zero percentage and no trade, the total
    is 0 and both extremes are still the sentinel. *)
Theorem unchanged_day (S : Snapshot) (s : DailySummary) :
  calculate_daily_performance S S = Ok s -> finite_balances S S ->
  Forall (fun r => PyFloat.is_zero (change_amount r) = true /\
                   PyFloat.is_zero (change_percent r) = true /\
                   trades r = 0%nat) (performance s) /\
  total_trades s = 0%nat /\
  biggest_gain s = sentinel /\ biggest_loss s = sentinel.
Proof. apply same_snapshot_summary. Qed.

End MoreAggregation3.

Section MoreAggregation4.

Context {builtins : PyBuiltins}.

(** X7: every entry of a summary comes from a user of both snapshots whose
    baseline is not zero, and its [change_percent] is its [change_amount]
    divided by that baseline, times 100. *)
Theorem change_percent_of_entry (A B : Snapshot) (s : DailySummary)
    (r : PerformanceRecord) :
  calculate_daily_performance A B = Ok s -> In r (performance s) ->
  exists ra rb fa fb,
    dict_get A (username r) = Some ra /\ dict_get B (username r) = Some rb /\
    py_float (balance ra) = Ok fa /\ py_float (balance rb) = Ok fb /\
    PyFloat.is_zero fa = false /\
    change_percent r =
      PyFloat.mul (PyFloat.div (change_amount r) fa) PyFloat.hundred.
Proof.
  intros Hs Hr.
  destruct (performance_In A B s Hs r Hr) as (p & c & Hp & Hc & Hcmp).
  apply compare_user_Ok in Hcmp as (fp & fc & Hfp & Hfc & Hz & E).
  exists p, c, fp, fc. rewrite E at 3 4. cbn. auto 10.
Qed.

(** X8: on snapshots whose balances are finite, no [change_percent] of the
    summary is NaN (overflow can make one infinite), so the performance list
    is in descending order with no further condition. *)
Theorem finite_balances_sorted (A B : Snapshot) (s : DailySummary) :
  calculate_daily_performance A B = Ok s -> finite_balances A B ->
  Forall (fun r => PyFloat.is_nan (change_percent r) = false)
         (performance s) /\
  StronglySorted not_below (performance s).
Proof.
  intros Hs Hfin.
  pose proof (finite_balances_not_nan A B s Hs Hfin) as Hnan.
  split; [exact Hnan|].
  apply calculate_Ok in Hs as (rs & _ & ->). cbn in *.
  apply (sorted_reverse_sorted by_percent
           (fun r => PyFloat.is_nan (change_percent r) = false)).
  - intros a b _ _. apply ltb_asym.
  - intros a b c _ Hb _. apply ltb_neg_trans, Hb.
  - eapply Permutation_Forall; [apply sorted_reverse_perm|exact Hnan].
Qed.

End MoreAggregation4.

(** * Properties of [compare_stock_changes] *)

Section StockChangesFacts.

Context {builtins : PyBuiltins}.

(** Over the keys of the current snapshot the loop raises nothing. *)
Lemma changes_loop_eq (prev cur : Snapshot) (unames : list string) :
  (forall u, In u unames -> In u (keys cur)) ->
  changes_loop prev cur unames = (flat_map (message_for prev cur) unames, None).
Proof.
  induction unames as [|u us IH]; intros Hsub; [reflexivity|].
  cbn [changes_loop flat_map]. unfold message_for at 1.
  rewrite IH by (intros u' H; apply Hsub; right; exact H).
  destruct (dict_get prev u) as [p|]; [|reflexivity].
  destruct (In_dict_get cur u) as [c ->]; [apply Hsub; left; reflexivity|].
  reflexivity.
Qed.

Lemma compare_stock_changes_eq (channel : Channel) (fs : Files)
    (cur : Snapshot) :
  latest_file fs = Some cur ->
  compare_stock_changes channel fs =
  (write_snapshot cur fs,
   match snapshot_file fs with
   | None => []
   | Some prev =>
       map (Sent channel) (flat_map (message_for prev cur) (keys cur))
   end).
Proof.
  intros Hcur. unfold compare_stock_changes. rewrite Hcur.
  destruct (snapshot_file fs) as [prev|]; [|reflexivity].
  rewrite changes_loop_eq by auto. reflexivity.
Qed.

Lemma symbols_differences_empty (p c : UserRecord) :
  (symbols (holdings c) ∖ symbols (holdings p) = ∅ /\
   symbols (holdings p) ∖ symbols (holdings c) = ∅) <->
  symbols (holdings c) = symbols (holdings p).
Proof.
  split.
  - intros [H1 H2]. apply set_eq. intros x. split; intros Hx.
    + destruct (decide (x ∈ symbols (holdings p))) as [|Hn]; [assumption|].
      assert (x ∈ symbols (holdings c) ∖ symbols (holdings p)) as H
        by (apply elem_of_difference; auto).
      rewrite H1 in H. destruct (not_elem_of_empty x H).
    + destruct (decide (x ∈ symbols (holdings c))) as [|Hn]; [assumption|].
      assert (x ∈ symbols (holdings p) ∖ symbols (holdings c)) as H
        by (apply elem_of_difference; auto).
      rewrite H2 in H. destruct (not_elem_of_empty x H).
  - intros ->. split; apply set_eq; intros x;
      rewrite elem_of_difference; split; try tauto;
      intros H; destruct (not_elem_of_empty x H).
Qed.

Lemma message_for_same (cur : Snapshot) (u : string) :
  message_for cur cur u = [].
Proof.
  unfold message_for. destruct (dict_get cur u) as [c|]; [|reflexivity].
  destruct (symbols_differences_empty c c) as [_ [H1 H2]]; [reflexivity|].
  rewrite !bool_decide_eq_true_2 by assumption. reflexivity.
Qed.

Lemma In_message_for (prev cur : Snapshot) (u : string) (m : Message) :
  In m (message_for prev cur u) <->
  exists p c,
    dict_get prev u = Some p /\ dict_get cur u = Some c /\
    symbols (holdings c) <> symbols (holdings p) /\
    m = StockChanges u (symbols (holdings c) ∖ symbols (holdings p))
                       (symbols (holdings p) ∖ symbols (holdings c)).
Proof.
  unfold message_for.
  destruct (dict_get prev u) as [p|]; [|split; [intros []|intros (? & ? & [=] & _)]].
  destruct (dict_get cur u) as [c|];
    [|split; [intros []|intros (? & ? & _ & [=] & _)]].
  pose proof (symbols_differences_empty p c) as Hiff.
  destruct (bool_decide _ && bool_decide _) eqn:E.
  - apply andb_true_iff in E as [E1%bool_decide_eq_true E2%bool_decide_eq_true].
    split; [intros []|]. intros (p' & c' & [= <-] & [= <-] & Hne & _).
    destruct Hne. apply Hiff. auto.
  - split.
    + intros [<-|[]]. exists p, c. repeat split; auto.
      intros Heq. apply Hiff in Heq as [H1 H2].
      rewrite !bool_decide_eq_true_2 in E by assumption. discriminate.
    + intros (p' & c' & [= <-] & [= <-] & _ & ->). left. reflexivity.
Qed.

(** X9: whenever the latest leaderboard file is there, a call leaves the
    snapshot file equal to it and touches no other file, and it sends no
    error message; when there was no snapshot file yet (the first run), it
    sends nothing at all. *)
Theorem snapshot_catches_up (channel : Channel) (fs : Files) (cur : Snapshot) :
  latest_file fs = Some cur ->
  fst (compare_stock_changes channel fs) = write_snapshot cur fs /\
  ~ In (Sent channel ErrorComparing) (snd (compare_stock_changes channel fs)) /\
  (snapshot_file fs = None -> snd (compare_stock_changes channel fs) = []).
Proof.
  intros Hcur. rewrite (compare_stock_changes_eq channel fs cur Hcur). cbn.
  split; [reflexivity|]. split.
  - destruct (snapshot_file fs) as [prev|]; [|intros []].
    intros (m & [= ->] & Hm)%in_map_iff.
    apply in_flat_map in Hm as (u & _ & Hm).
    apply In_message_for in Hm as (? & ? & _ & _ & _ & [=]).
  - intros ->. reflexivity.
Qed.

(** X10: a second call with the latest file unchanged sends nothing and
    leaves the files as the first call left them. *)
Theorem compare_twice (channel : Channel) (fs : Files) (cur : Snapshot) :
  latest_file fs = Some cur ->
  compare_stock_changes channel (fst (compare_stock_changes channel fs)) =
  (fst (compare_stock_changes channel fs), []).
Proof.
  intros Hcur. rewrite (compare_stock_changes_eq channel fs cur Hcur).
  cbn [fst].
  rewrite (compare_stock_changes_eq channel (write_snapshot cur fs) cur)
    by exact Hcur.
  cbn [write_snapshot snapshot_file latest_file morning_file].
  f_equal. rewrite flat_map_concat_map.
  rewrite (map_ext _ (fun _ => [])) by apply message_for_same.
  induction (keys cur) as [|k ks IH]; [reflexivity|exact IH].
Qed.

Lemma In_compare_messages (channel : Channel) (fs : Files)
    (prev cur : Snapshot) (u : string) (bought sold : gset string) :
  snapshot_file fs = Some prev -> latest_file fs = Some cur ->
  (In (Sent channel (StockChanges u bought sold))
      (snd (compare_stock_changes channel fs)) <->
   exists p c,
     dict_get prev u = Some p /\ dict_get cur u = Some c /\
     symbols (holdings c) <> symbols (holdings p) /\
     bought = symbols (holdings c) ∖ symbols (holdings p) /\
     sold = symbols (holdings p) ∖ symbols (holdings c)).
Proof.
  intros Hprev Hcur.
  rewrite (compare_stock_changes_eq channel fs cur Hcur), Hprev. cbn.
  rewrite in_map_iff. split.
  - intros (m & [= ->] & Hm). apply in_flat_map in Hm as (u' & _ & Hm).
    apply In_message_for in Hm as (p & c & Hp & Hc & Hne & [= -> -> ->]).
    exists p, c. auto.
  - intros (p & c & Hp & Hc & Hne & -> & ->).
    eexists. split; [reflexivity|].
    apply in_flat_map. exists u. split; [eapply dict_get_In, Hc|].
    apply In_message_for. exists p, c. auto.
Qed.

(** X11: with both files there, a "Stock Changes" message is sent for a
    user exactly when the user is in both files and the sets of symbols
    held differ; it lists as bought the symbols held now and not before,
    and as sold the symbols held before and not now. *)
Theorem who_gets_a_message (channel : Channel) (fs : Files)
    (prev cur : Snapshot) (u : string) (bought sold : gset string) :
  snapshot_file fs = Some prev -> latest_file fs = Some cur ->
  (In (Sent channel (StockChanges u bought sold))
      (snd (compare_stock_changes channel fs)) <->
   exists p c,
     dict_get prev u = Some p /\ dict_get cur u = Some c /\
     symbols (holdings c) <> symbols (holdings p) /\
     bought = symbols (holdings c) ∖ symbols (holdings p) /\
     sold = symbols (holdings p) ∖ symbols (holdings c)).
Proof. apply In_compare_messages. Qed.

(** X12: the messages agree with the daily aggregation of the same two
    files: a user of the performance list gets a "Stock Changes" message
    exactly when the [trades] of its entry is not 0, and the symbols bought
    and sold in the message add up to that count. *)
Theorem messages_match_trades (channel : Channel) (fs : Files)
    (prev cur : Snapshot) (s : DailySummary) (r : PerformanceRecord) :
  snapshot_file fs = Some prev -> latest_file fs = Some cur ->
  calculate_daily_performance prev cur = Ok s -> In r (performance s) ->
  ((exists bought sold,
      In (Sent channel (StockChanges (username r) bought sold))
         (snd (compare_stock_changes channel fs))) <->
   trades r <> 0%nat) /\
  (forall bought sold,
     In (Sent channel (StockChanges (username r) bought sold))
        (snd (compare_stock_changes channel fs)) ->
     (size bought + size sold)%nat = trades r).
Proof.
  intros Hprev Hcur Hs Hr.
  destruct (performance_In prev cur s Hs r Hr) as (p & c & Hp & Hc & Hcmp).
  apply compare_user_Ok in Hcmp as (fp & fc & _ & _ & _ & E).
  assert (trades r = size (set_xor (symbols (holdings c))
                                   (symbols (holdings p)))) as Ht
    by (rewrite E; reflexivity).
  assert (size (set_xor (symbols (holdings c)) (symbols (holdings p))) =
          (size (symbols (holdings c) ∖ symbols (holdings p)) +
           size (symbols (holdings p) ∖ symbols (holdings c)))%nat) as Hsize.
  { unfold set_xor. apply size_union. intros x H1 H2.
    apply elem_of_difference in H1 as [H1 _].
    apply elem_of_difference in H2 as [_ H2]. contradiction. }
  split.
  - split.
    + intros (bought & sold & Hin).
      apply (In_compare_messages channel fs prev cur) in Hin
        as (p' & c' & Hp' & Hc' & Hne & _ & _); try assumption.
      rewrite Hp in Hp'. rewrite Hc in Hc'.
      injection Hp' as <-. injection Hc' as <-.
      rewrite Ht. intros H0. apply size_empty_iff in H0.
      apply Hne. apply symbols_differences_empty.
      unfold set_xor in H0. split; apply set_eq; intros x;
        (split; [|intros Hx; destruct (not_elem_of_empty x Hx)]);
        intros Hx; apply (proj1 (set_equiv _ _) H0 x);
        apply elem_of_union; auto.
    + intros Hne. eexists. eexists.
      apply (In_compare_messages channel fs prev cur); try assumption.
      exists p, c. repeat split; try assumption.
      intros Heq. apply Hne. rewrite Ht, Hsize.
      destruct (proj2 (symbols_differences_empty p c) Heq) as [-> ->].
      reflexivity.
  - intros bought sold Hin.
    apply (In_compare_messages channel fs prev cur) in Hin
      as (p' & c' & Hp' & Hc' & _ & -> & ->); try assumption.
    rewrite Hp in Hp'. rewrite Hc in Hc'.
    injection Hp' as <-. injection Hc' as <-.
    rewrite Ht, Hsize. reflexivity.
Qed.

End StockChangesFacts.

(** * Properties of the lookup and of the leaderboard commands *)

Section Lookups.

Context {builtins : PyBuiltins}.

Lemma set_money_to_numeric_idem (r : Row) :
  set_money to_numeric (set_money to_numeric r) = set_money to_numeric r.
Proof. unfold set_money. cbn. rewrite to_numeric_idem. reflexivity. Qed.

(** The answer depends on the names and on what each row shows only. *)
Lemma answer_ext (df df' : DataFrame) (uname : string) :
  map account_name df = map account_name df' ->
  map info_of df = map info_of df' ->
  snd (get_user_info df uname) = snd (get_user_info df' uname).
Proof.
  rewrite !get_user_info_answer. revert df'.
  induction df as [|r df IH]; intros [|r' df']; cbn [map]; try discriminate;
    [reflexivity|].
  intros [= Hn Hns] Hinfo.
  pose proof (f_equal (hd (info_of r)) Hinfo) as Hi.
  pose proof (f_equal (@tl _) Hinfo) as His. cbn [hd tl] in Hi, His.
  cbn [List.filter]. rewrite <- Hn.
  destruct (String.eqb (account_name r) uname).
  - rewrite Hi. reflexivity.
  - apply IH; assumption.
Qed.

(** X13: the assignment [get_user_info] makes to the caller's frame does not
    disturb later lookups: a second call, for any username, leaves the frame
    as the first call left it and answers what it would have answered on the
    original frame. *)
Theorem lookup_after_lookup (df : DataFrame) (u u' : string) :
  get_user_info (fst (get_user_info df u)) u' =
  (fst (get_user_info df u), snd (get_user_info df u')).
Proof.
  rewrite (surjective_pairing (get_user_info (fst (get_user_info df u)) u')).
  rewrite !get_user_info_frame. f_equal.
  - rewrite map_map. apply map_ext, set_money_to_numeric_idem.
  - apply answer_ext.
    + apply names_coerced.
    + rewrite map_map. apply map_ext, info_of_coerced.
Qed.

(** *** What the frame of a snapshot shows *)

Lemma info_of_as_float64 (r : Row) :
  is_number (money r) || is_na (money r) = true ->
  info_of (set_money as_float64 r) = info_of r.
Proof.
  unfold info_of, set_money. cbn.
  destruct (money r) as [|z|f|t]; cbn; try reflexivity; discriminate.
Qed.

Lemma infer_money_info (df : DataFrame) :
  map info_of (infer_money df) = map info_of df.
Proof.
  unfold infer_money.
  destruct (forallb _ df); [reflexivity|].
  destruct (forallb (fun r => is_number (money r) || is_na (money r)) df)
    eqn:E; [|reflexivity].
  rewrite map_map. apply map_ext_in. intros r Hr.
  apply info_of_as_float64. rewrite forallb_forall in E. apply E, Hr.
Qed.



End Lookups.

Section LeaderboardFacts.

Context {builtins : PyBuiltins}.

Lemma leaderboard_Ok_inv (data : Snapshot) (count : Z)
    (entries : list (string * JVal * string)) :
  List.NoDup (keys data) -> leaderboard data count = Ok entries ->
  exists rows,
    data <> [] /\
    Permutation rows (infer_money (map row_of data)) /\
    entries =
      map info_of
        (firstn (Z.to_nat (Z.min (clamp_count count)
                                 (Z.of_nat (length rows)))) rows).
Proof.
  intros Hnd. unfold leaderboard.
  destruct data as [|kv data]; [discriminate|].
  rewrite from_dict_Ok by discriminate. cbn [mbind result_bind].
  destruct (sort_values _) as [rows|] eqn:Hsort; [|discriminate].
  pose proof (sort_values_perm _ _ Hsort) as Hperm.
  cbn [mbind result_bind]. cbv zeta.
  rewrite leaderboard_loop_rows.
  - intros [= <-]. exists rows. split; [discriminate|]. auto.
  - eapply Permutation_NoDup;
      [apply Permutation_map; symmetry; exact Hperm|].
    rewrite infer_money_names, map_map. exact Hnd.
  - lia.
Qed.

Lemma dict_get_of_In (data : Snapshot) (kv : string * UserRecord) :
  List.NoDup (keys data) -> In kv data -> dict_get data (fst kv) = Some (snd kv).
Proof.
  induction data as [|[k v] data IH]; cbn; [intros _ []|].
  intros Hnd%List.NoDup_cons_iff [<-|Hin]; cbn.
  - rewrite String.eqb_refl. reflexivity.
  - destruct Hnd as [Hk Hnd].
    destruct (String.eqb_spec k (fst kv)) as [->|Hne].
    + destruct Hk. apply in_map, Hin.
    + apply IH; assumption.
Qed.

Lemma NoDup_firstn' {X} (n : nat) (l : list X) :
  List.NoDup l -> List.NoDup (firstn n l).
Proof.
  intros Hnd. rewrite <- (firstn_skipn n l) in Hnd.
  apply List.NoDup_app_remove_r in Hnd. exact Hnd.
Qed.

Lemma In_firstn' {X} (n : nat) (l : list X) (x : X) :
  In x (firstn n l) -> In x l.
Proof.
  intros H. rewrite <- (firstn_skipn n l). apply in_or_app. left. exact H.
Qed.

(** X14: each entry the leaderboard query returns is the entry of one user
    of the file: it carries that user's own name, coerced balance and
    holdings, and no user is listed twice. *)
Theorem leaderboard_entries_are_users (data : Snapshot) (count : Z)
    (entries : list (string * JVal * string)) :
  List.NoDup (keys data) -> leaderboard data count = Ok entries ->
  List.NoDup (map (fun e => fst (fst e)) entries) /\
  forall e, In e entries ->
    exists rec, dict_get data (fst (fst e)) = Some rec /\
                e = shown (fst (fst e)) rec.
Proof.
  intros Hnd Hres.
  destruct (leaderboard_Ok_inv data count entries Hnd Hres)
    as (rows & _ & Hperm & ->).
  set (k := Z.to_nat _). split.
  - rewrite map_map. cbn. rewrite <- firstn_map. apply NoDup_firstn'.
    eapply Permutation_NoDup;
      [apply Permutation_map; symmetry; exact Hperm|].
    rewrite infer_money_names, map_map. exact Hnd.
  - intros e (r & <- & Hr%In_firstn')%in_map_iff.
    assert (In (info_of r) (map info_of (map row_of data))) as Hin.
    { rewrite <- infer_money_info. apply in_map.
      eapply Permutation_in; eassumption. }
    rewrite map_map in Hin. apply in_map_iff in Hin as (kv & E & Hkv).
    exists (snd kv). rewrite <- E. cbn. split; [|reflexivity].
    apply dict_get_of_In; assumption.
Qed.

(** X15: the user announced by the periodic "Leaderboard Update" is the
    first entry the leaderboard command returns, whatever the count. *)
Theorem top_ranked_is_first (data : Snapshot) (count : Z)
    (entries : list (string * JVal * string)) :
  leaderboard data count = Ok entries ->
  exists top rest, entries = top :: rest /\ top_ranked data = Ok top.
Proof.
  unfold leaderboard, top_ranked.
  destruct data as [|kv data]; [discriminate|].
  rewrite from_dict_Ok by discriminate. cbn [mbind result_bind].
  destruct (sort_values _) as [rows|] eqn:Hsort; [|discriminate].
  pose proof (Permutation_length (sort_values_perm _ _ Hsort)) as Hlen.
  rewrite <- (length_map account_name (infer_money _)) in Hlen.
  rewrite infer_money_names, !length_map in Hlen. cbn [length] in Hlen.
  pose proof (clamp_count_range count) as Hc.
  cbn [mbind result_bind]. cbv zeta.
  destruct (Z.to_nat (Z.min (clamp_count count) (Z.of_nat (length rows))))
    as [|n] eqn:En; [lia|].
  cbn [leaderboard_loop].
  destruct (nth_error rows 0) as [row|]; [|discriminate].
  destruct (get_user_info rows (account_name row)) as [df' [info|]];
    [|discriminate].
  cbn [snd]. destruct (leaderboard_loop df' 1 n) as [rest|]; [|discriminate].
  intros [= <-]. exists info, rest. auto.
Qed.

End LeaderboardFacts.

(** * Properties of the helpers on names and files *)

Section Strings.

Local Open Scope string_scope.

Lemma prefix_app (s1 s2 : string) :
  String.prefix s1 s2 = true <-> exists post, s2 = s1 ++ post.
Proof.
  revert s2. induction s1 as [|a s1 IH]; intros s2.
  - split; [intros _; exists s2; reflexivity|].
    destruct s2; reflexivity.
  - destruct s2 as [|b s2]; cbn [String.prefix append].
    + split; [discriminate|intros [post [=]]].
    + destruct (ascii_dec a b) as [->|Hne].
      * rewrite IH. split; intros [post E]; exists post.
        -- rewrite E. reflexivity.
        -- injection E as E. exact E.
      * split; [discriminate|]. intros [post [= E _]]. congruence.
Qed.

(** [contains] is Python's [in] on strings: the needle occurs somewhere. *)
Lemma contains_app (needle hay : string) :
  contains needle hay = true <-> exists pre post, hay = pre ++ needle ++ post.
Proof.
  induction hay as [|c hay IH]; cbn [contains].
  - rewrite orb_false_r, prefix_app. split.
    + intros [post E]. exists "", post. exact E.
    + intros (pre & post & E). destruct pre as [|? ?]; [|discriminate].
      exists post. exact E.
  - rewrite orb_true_iff, prefix_app, IH. split.
    + intros [[post E]|(pre & post & E)].
      * exists "", post. exact E.
      * exists (String c pre), post. cbn. rewrite E. reflexivity.
    + intros (pre & post & E). destruct pre as [|c' pre].
      * left. exists post. exact E.
      * right. injection E as _ E. exists pre, post. exact E.
Qed.

Lemma substring_all (s : string) : substring 0 (String.length s) s = s.
Proof. induction s as [|c s IH]; cbn; [|rewrite IH]; reflexivity. Qed.

Lemma substring_skip (pre s : string) (m : nat) :
  substring (String.length pre) m (pre ++ s) = substring 0 m s.
Proof. induction pre as [|c pre IH]; cbn; [reflexivity|exact IH]. Qed.

Lemma substring_split (s : string) (n : nat) :
  (n <= String.length s)%nat ->
  s = substring 0 n s ++ substring n (String.length s - n) s.
Proof.
  revert n. induction s as [|c s IH]; intros [|n] Hn; cbn in *;
    try reflexivity; try lia.
  - rewrite substring_all. reflexivity.
  - change (String c s =
            String c (substring 0 n s ++ substring n (String.length s - n) s)).
    f_equal. apply IH. lia.
Qed.

Lemma length_app (s1 s2 : string) :
  String.length (s1 ++ s2) = (String.length s1 + String.length s2)%nat.
Proof.
  induction s1 as [|c s1 IH]; [reflexivity|].
  change (S (String.length (s1 ++ s2)) =
          S (String.length s1 + String.length s2)).
  f_equal. exact IH.
Qed.

(** [endswith] is Python's [str.endswith]. *)
Lemma endswith_app (s suffix : string) :
  endswith s suffix = true <-> exists pre, s = pre ++ suffix.
Proof.
  unfold endswith. rewrite andb_true_iff, Nat.leb_le, String.eqb_eq. split.
  - intros [Hle E].
    exists (substring 0 (String.length s - String.length suffix) s).
    pose proof (substring_split s (String.length s - String.length suffix)
                  ltac:(lia)) as H.
    replace (String.length s - (String.length s - String.length suffix))%nat
      with (String.length suffix) in H by lia.
    rewrite E in H. exact H.
  - intros [pre ->]. rewrite length_app. split; [lia|].
    replace (String.length pre + String.length suffix - String.length suffix)%nat
      with (String.length pre) by lia.
    rewrite substring_skip. apply substring_all.
Qed.

End Strings.

Section Autocomplete.

Local Open Scope string_scope.

Lemma filter_sublist {X} (f : X -> bool) (l : list X) :
  sublist (List.filter f l) l.
Proof.
  induction l as [|x l IH]; cbn [List.filter]; [constructor|].
  destruct (f x); constructor; exact IH.
Qed.

Lemma firstn_all_short {X} (n : nat) (l : list X) :
  (length (firstn n l) < n)%nat -> firstn n l = l.
Proof.
  intros H. apply firstn_all2.
  destruct (Nat.le_gt_cases (length l) n) as [Hle|Hgt]; [exact Hle|].
  rewrite length_firstn in H. lia.
Qed.

(** X17: [username_autocomplete] offers at most 25 choices; each is a
    username of the list, offered under its own name, whose lower-case form
    contains the lower-case query; the choices keep the order of the list;
    and when fewer than 25 are offered, no matching username is left out. *)
Theorem autocomplete_choices (lower : string -> string)
    (usernames_list : list string) (current : string) :
  (length (username_autocomplete lower usernames_list current) <= 25)%nat /\
  (forall c, In c (username_autocomplete lower usernames_list current) ->
     choice_value c = choice_name c /\
     In (choice_name c) usernames_list /\
     exists pre post, lower (choice_name c) = pre ++ lower current ++ post) /\
  sublist (map choice_name (username_autocomplete lower usernames_list current))
    usernames_list /\
  ((length (username_autocomplete lower usernames_list current) < 25)%nat ->
   forall uname pre post,
     In uname usernames_list ->
     lower uname = pre ++ lower current ++ post ->
     In {| choice_name := uname; choice_value := uname |}
        (username_autocomplete lower usernames_list current)).
Proof.
  unfold username_autocomplete.
  set (matching := List.filter _ usernames_list).
  set (choices := map _ matching).
  repeat split.
  - rewrite length_firstn. lia.
  - apply In_firstn' in H. apply in_map_iff in H as (u & <- & _). reflexivity.
  - apply In_firstn' in H. apply in_map_iff in H as (u & <- & Hu).
    apply filter_In in Hu as [Hu _]. exact Hu.
  - apply In_firstn' in H. apply in_map_iff in H as (u & <- & Hu).
    apply filter_In in Hu as [_ Hu]. apply contains_app in Hu. exact Hu.
  - rewrite <- firstn_map. subst choices.
    rewrite map_map. cbn [choice_name]. rewrite map_id.
    transitivity matching; [apply sublist_take|apply filter_sublist].
  - intros Hshort uname pre post Hin Hlow.
    rewrite firstn_all_short by exact Hshort.
    apply in_map_iff. exists uname. split; [reflexivity|].
    apply filter_In. split; [exact Hin|].
    apply contains_app. exists pre, post. exact Hlow.
Qed.

End Autocomplete.

Section LatestFile.

Local Open Scope string_scope.

Lemma max_by_ctime_In (rest : list (string * float)) (best : string * float) :
  In (max_by_ctime best rest) (best :: rest).
Proof.
  revert best. induction rest as [|f rest IH]; intros best; cbn [max_by_ctime].
  - left. reflexivity.
  - destruct (IH (if PyFloat.ltb (snd best) (snd f) then f else best))
      as [<-|H].
    + destruct (PyFloat.ltb (snd best) (snd f)); [right; left|left]; reflexivity.
    + right. right. exact H.
Qed.

Lemma max_by_ctime_max (rest : list (string * float)) (best : string * float) :
  (forall f, In f (best :: rest) -> PyFloat.is_nan (snd f) = false) ->
  forall f, In f (best :: rest) ->
    PyFloat.ltb (snd (max_by_ctime best rest)) (snd f) = false.
Proof.
  revert best. induction rest as [|g rest IH]; intros best Hnan f Hf;
    cbn [max_by_ctime].
  - destruct Hf as [<-|[]]. apply ltb_irrefl.
  - set (best' := if PyFloat.ltb (snd best) (snd g) then g else best).
    assert (Hb' : In best' (best :: g :: rest)).
    { subst best'. destruct (PyFloat.ltb (snd best) (snd g));
        [right; left|left]; reflexivity. }
    assert (Hnan' : forall f, In f (best' :: rest) ->
                              PyFloat.is_nan (snd f) = false).
    { intros h [<-|Hh]; [apply Hnan, Hb'|]. apply Hnan. right. right. exact Hh. }
    pose proof (IH best' Hnan' best' (or_introl eq_refl)) as Htop.
    destruct Hf as [<-|[<-|Hf]].
    + apply ltb_neg_trans with (b := snd best'); [apply Hnan, Hb'|exact Htop|].
      subst best'. destruct (PyFloat.ltb (snd best) (snd g)) eqn:E.
      * apply ltb_asym. exact E.
      * apply ltb_irrefl.
    + apply ltb_neg_trans with (b := snd best'); [apply Hnan, Hb'|exact Htop|].
      subst best'. destruct (PyFloat.ltb (snd best) (snd g)) eqn:E.
      * apply ltb_irrefl.
      * exact E.
    + apply IH; [exact Hnan'|]. right. exact Hf.
Qed.

(** X18: [get_latest_in_time_leaderboard] returns [None] exactly when no
    name of the listing ends in ".json". *)
Theorem no_latest_file (listing : list (string * float)) :
  get_latest_in_time_leaderboard listing = None <->
  forall name t pre, In (name, t) listing -> name <> pre ++ ".json".
Proof.
  unfold get_latest_in_time_leaderboard.
  destruct (List.filter _ listing) as [|f rest] eqn:E.
  - split; [intros _|reflexivity]. intros name t pre Hin ->.
    assert (H : In (pre ++ ".json", t) []).
    { rewrite <- E. apply filter_In. split; [exact Hin|].
      apply endswith_app. exists pre. reflexivity. }
    destruct H.
  - split; [discriminate|]. intros H. exfalso.
    assert (Hf : In f (f :: rest)) by (left; reflexivity).
    rewrite <- E in Hf. apply filter_In in Hf as [Hin Hend].
    apply endswith_app in Hend as [pre Hpre]. destruct f as [name t].
    exact (H name t pre Hin Hpre).
Qed.

(** X19: the path [get_latest_in_time_leaderboard] returns is the directory
    joined with a name of the listing that ends in ".json", and, when no
    creation time is a NaN, no ".json" file of the listing was created later
    than that one. *)
Theorem latest_file_is_newest (listing : list (string * float))
    (path : string) :
  get_latest_in_time_leaderboard listing = Some path ->
  exists name t pre,
    In (name, t) listing /\ name = pre ++ ".json" /\
    path = in_time_dir ++ "/" ++ name /\
    ((forall f, In f listing -> PyFloat.is_nan (snd f) = false) ->
     forall name' t' pre', In (name', t') listing -> name' = pre' ++ ".json" ->
       PyFloat.ltb t t' = false).
Proof.
  unfold get_latest_in_time_leaderboard.
  destruct (List.filter _ listing) as [|f rest] eqn:E; [discriminate|].
  intros [= <-].
  pose proof (max_by_ctime_In rest f) as Hin. rewrite <- E in Hin.
  apply filter_In in Hin as [Hin Hend].
  apply endswith_app in Hend as [pre Hpre].
  destruct (max_by_ctime f rest) as [name t] eqn:Emax. cbn [fst] in *.
  exists name, t, pre. repeat split; [exact Hin|exact Hpre|].
  intros Hnan name' t' pre' Hin' Hpre'.
  assert (Hf' : In (name', t') (f :: rest)).
  { rewrite <- E. apply filter_In. split; [exact Hin'|].
    apply endswith_app. exists pre'. exact Hpre'. }
  pose proof (max_by_ctime_max rest f) as Hmax. rewrite Emax in Hmax.
  apply (fun H => Hmax H (name', t') Hf').
  intros g Hg. apply Hnan. rewrite <- E in Hg.
  apply filter_In in Hg as [Hg _]. exact Hg.
Qed.

End LatestFile.

(** * Properties of the scheduled tasks *)

Section DailySummaryFacts.

Context {builtins : PyBuiltins}.

(** The only message of [send_daily_summary] is the embed built from the
    summary of the morning file and the latest file. *)
Lemma send_daily_summary_sent (cfg : Config) (now : Now) (fs : Files)
    (ch : Channel) (m : Message) :
  In (Sent ch m) (send_daily_summary cfg now fs) ->
  exists md cd stats,
    morning_file fs = Some md /\ latest_file fs = Some cd /\
    calculate_daily_performance md cd = Ok stats /\
    performance stats <> [] /\
    ch = LeaderboardChannel /\ m = EndOfDaySummary (summary_fields stats).
Proof.
  unfold send_daily_summary.
  destruct (weekday now <? 5)%nat; [|intros []].
  destruct (morning_file fs) as [md|]; [|intros [[=]|[]]].
  destruct (latest_file fs) as [cd|]; [|intros [[=]|[]]].
  destruct (calculate_daily_performance md cd) as [stats|e] eqn:E;
    [|intros [[=]|[]]].
  destruct (performance stats) as [|p ps] eqn:Ep; [intros []|].
  destruct (leaderboard_lookup cfg); [intros [[=]|[]]|intros []|].
  intros [[= <- <-]|[]]. exists md, cd, stats.
  split; [reflexivity|]. split; [reflexivity|]. split; [exact E|].
  split; [rewrite Ep; discriminate|]. split; reflexivity.
Qed.

Lemma In_summary_fields (stats : DailySummary) (f : Field) :
  In f (summary_fields stats) <->
  f = MarketActivity (total_trades stats) \/
  f = TopPerformers (firstn 3 (performance stats)) \/
  f = NeedsImprovement (last_three (performance stats)) \/
  (ex_username (biggest_gain stats) <> "" /\
   f = BiggestGain (biggest_gain stats)) \/
  (ex_username (biggest_loss stats) <> "" /\
   f = BiggestLoss (biggest_loss stats)) \/
  f = MostActiveTraders (most_active stats).
Proof.
  unfold summary_fields. rewrite !in_app_iff. cbn [In].
  destruct (String.eqb_spec (ex_username (biggest_gain stats)) "") as [Eg|Eg],
    (String.eqb_spec (ex_username (biggest_loss stats)) "") as [El|El];
    cbn [In]; intuition congruence.
Qed.

Lemma last_three_short {X} (l : list X) :
  (length l <= 3)%nat -> last_three l = l /\ firstn 3 l = l.
Proof.
  intros H. unfold last_three. split.
  - replace (length l - 3)%nat with 0%nat by lia. reflexivity.
  - apply firstn_all2. exact H.
Qed.

(** X20: when at most three users are compared, the end-of-day embed lists
    the same entries, all of them, both as "Top Performers" and as "Needs
    Improvement". *)
Theorem few_users_top_and_bottom (cfg : Config) (now : Now) (fs : Files)
    (md cd : Snapshot) (ch : Channel) (fields : list Field) :
  morning_file fs = Some md -> latest_file fs = Some cd ->
  (length (compared md cd) <= 3)%nat ->
  In (Sent ch (EndOfDaySummary fields)) (send_daily_summary cfg now fs) ->
  exists ps,
    In (TopPerformers ps) fields /\ In (NeedsImprovement ps) fields /\
    Permutation (map username ps) (compared md cd).
Proof.
  intros Hm Hl Hlen Hsent.
  apply send_daily_summary_sent
    in Hsent as (md' & cd' & stats & Hm' & Hl' & Hs & _ & _ & [= ->]).
  rewrite Hm in Hm'. rewrite Hl in Hl'.
  injection Hm' as <-. injection Hl' as <-.
  pose proof Hs as (rs & Hrs & Es)%calculate_Ok.
  assert (Hperm : Permutation (map username (performance stats))
                              (compared md cd)).
  { rewrite Es. cbn [performance summary_of]. unfold compared.
    rewrite <- (records_Ok_names _ _ _ _ Hrs).
    apply Permutation_map, sorted_reverse_perm. }
  assert (Hshort : (length (performance stats) <= 3)%nat).
  { rewrite <- (length_map username), (Permutation_length Hperm). exact Hlen. }
  destruct (last_three_short _ Hshort) as [Hlast Hfirst].
  exists (performance stats). split; [|split; [|exact Hperm]].
  - apply In_summary_fields. right. left. rewrite Hfirst. reflexivity.
  - apply In_summary_fields. right. right. left. rewrite Hlast. reflexivity.
Qed.

(** X21: a "Biggest Gain" field of the end-of-day embed names a compared
    user with a non-empty name whose percentage is above 0 and that no entry
    exceeds, and a "Biggest Loss" field one whose percentage is below 0 and
    that no entry is below.  When no user is named by the empty string, some
    entry above 0 is enough for the "Biggest Gain" field to be shown, and
    some entry below 0 for the "Biggest Loss" field. *)
Theorem biggest_move_fields (cfg : Config) (now : Now) (fs : Files)
    (md cd : Snapshot) (stats : DailySummary) (ch : Channel)
    (fields : list Field) :
  morning_file fs = Some md -> latest_file fs = Some cd ->
  calculate_daily_performance md cd = Ok stats ->
  In (Sent ch (EndOfDaySummary fields)) (send_daily_summary cfg now fs) ->
  (forall x, In (BiggestGain x) fields ->
     exists r, In r (performance stats) /\ x = extreme_of r /\
       username r <> "" /\
       PyFloat.ltb PyFloat.zero (change_percent r) = true /\
       forall r', In r' (performance stats) ->
         PyFloat.ltb (change_percent r) (change_percent r') = false) /\
  (forall x, In (BiggestLoss x) fields ->
     exists r, In r (performance stats) /\ x = extreme_of r /\
       username r <> "" /\
       PyFloat.ltb (change_percent r) PyFloat.zero = true /\
       forall r', In r' (performance stats) ->
         PyFloat.ltb (change_percent r') (change_percent r) = false) /\
  (dict_get cd "" = None ->
   (exists r, In r (performance stats) /\
              PyFloat.ltb PyFloat.zero (change_percent r) = true) ->
   exists x, In (BiggestGain x) fields) /\
  (dict_get cd "" = None ->
   (exists r, In r (performance stats) /\
              PyFloat.ltb (change_percent r) PyFloat.zero = true) ->
   exists x, In (BiggestLoss x) fields).
Proof.
  intros Hm Hl Hs Hsent.
  apply send_daily_summary_sent
    in Hsent as (md' & cd' & stats' & Hm' & Hl' & Hs' & _ & _ & [= ->]).
  rewrite Hm in Hm'. rewrite Hl in Hl'.
  injection Hm' as <-. injection Hl' as <-.
  rewrite Hs in Hs'. injection Hs' as <-.
  assert (Hname : dict_get cd "" = None ->
                  forall r, In r (performance stats) -> username r <> "").
  { intros Hnone r Hr E.
    destruct (performance_In md cd stats Hs r Hr) as (p & c & _ & Hc & _).
    rewrite E in Hc. congruence. }
  pose proof Hs as (rs & _ & Es)%calculate_Ok.
  assert (Hin : forall r, In r (performance stats) <-> In r rs).
  { intros r. rewrite Es. cbn [performance summary_of].
    apply sorted_reverse_In. }
  pose proof (fold_update_gain rs) as Hg.
  pose proof (fold_update_loss rs) as Hlo. cbn zeta in Hg, Hlo.
  assert (Eg : biggest_gain stats =
               st_biggest_gain (fold_left update rs initial_state))
    by (rewrite Es; reflexivity).
  assert (Elo : biggest_loss stats =
                st_biggest_loss (fold_left update rs initial_state))
    by (rewrite Es; reflexivity).
  rewrite <- Eg in Hg. rewrite <- Elo in Hlo.
  repeat split.
  - intros x Hx. apply In_summary_fields in Hx
      as [[=]|[[=]|[[=]|[[Hne [= ->]]|[[_ [=]]|[=]]]]]].
    destruct Hg as [[Hsen _]|(r & Hr & Hx & Hpos & Hmax)].
    + rewrite Hsen in Hne. contradiction Hne. reflexivity.
    + exists r. split; [apply Hin, Hr|]. split; [exact Hx|].
      split; [rewrite Hx in Hne; exact Hne|]. split; [exact Hpos|].
      intros r' Hr'. apply Hmax, Hin, Hr'.
  - intros x Hx. apply In_summary_fields in Hx
      as [[=]|[[=]|[[=]|[[_ [=]]|[[Hne [= ->]]|[=]]]]]].
    destruct Hlo as [[Hsen _]|(r & Hr & Hx & Hneg & Hmin)].
    + rewrite Hsen in Hne. contradiction Hne. reflexivity.
    + exists r. split; [apply Hin, Hr|]. split; [exact Hx|].
      split; [rewrite Hx in Hne; exact Hne|]. split; [exact Hneg|].
      intros r' Hr'. apply Hmin, Hin, Hr'.
  - intros Hnone (r & Hr & Hpos).
    destruct Hg as [[_ Hall]|(r1 & Hr1 & Hx & _ & _)].
    + rewrite (Hall r) in Hpos by (apply Hin, Hr). discriminate.
    + exists (biggest_gain stats). apply In_summary_fields.
      right. right. right. left. split; [|reflexivity].
      rewrite Hx. apply (Hname Hnone r1), Hin, Hr1.
  - intros Hnone (r & Hr & Hneg).
    destruct Hlo as [[_ Hall]|(r1 & Hr1 & Hx & _ & _)].
    + rewrite (Hall r) in Hneg by (apply Hin, Hr). discriminate.
    + exists (biggest_loss stats). apply In_summary_fields.
      right. right. right. right. left. split; [|reflexivity].
      rewrite Hx. apply (Hname Hnone r1), Hin, Hr1.
Qed.

End DailySummaryFacts.

Section MorningRoundTrip.

Context {builtins : PyBuiltins}.

(** X22: an end-of-day summary sent after [start_of_day] has run on a
    weekday, with the latest file not refreshed in between and finite
    balances, announces 0 trades and shows neither a "Biggest Gain" nor a
    "Biggest Loss" field. *)
Theorem summary_right_after_morning (cfg : Config) (morning evening : Now)
    (fs : Files) (cur : Snapshot) (ch : Channel) (fields : list Field) :
  latest_file fs = Some cur -> (weekday morning < 5)%nat ->
  finite_balances cur cur ->
  In (Sent ch (EndOfDaySummary fields))
     (send_daily_summary cfg evening (fst (start_of_day morning fs))) ->
  In (MarketActivity 0) fields /\
  (forall x, ~ In (BiggestGain x) fields) /\
  (forall x, ~ In (BiggestLoss x) fields).
Proof.
  intros Hcur Hday Hfin Hsent.
  unfold start_of_day, create_morning_snapshot in Hsent.
  rewrite (proj2 (Nat.ltb_lt _ _) Hday), Hcur in Hsent. cbn [fst] in Hsent.
  apply send_daily_summary_sent
    in Hsent as (md & cd & stats & Hm & Hl & Hs & _ & _ & [= ->]).
  cbn in Hm, Hl. rewrite Hcur in Hl.
  injection Hm as <-. injection Hl as <-.
  destruct (same_snapshot_summary cur stats Hs Hfin) as (_ & Ht & Hg & Hlo).
  split; [|split].
  - apply In_summary_fields. left. rewrite Ht. reflexivity.
  - intros x Hx. apply In_summary_fields in Hx
      as [[=]|[[=]|[[=]|[[Hne _]|[[_ [=]]|[=]]]]]].
    rewrite Hg in Hne. apply Hne. reflexivity.
  - intros x Hx. apply In_summary_fields in Hx
      as [[=]|[[=]|[[=]|[[_ [=]]|[[Hne _]|[=]]]]]].
    rewrite Hlo in Hne. apply Hne. reflexivity.
Qed.

End MorningRoundTrip.

Section SendLeaderboardFacts.

Context {builtins : PyBuiltins}.

Lemma compare_stock_changes_files (channel : Channel) (fs : Files) :
  latest_file (fst (compare_stock_changes channel fs)) = latest_file fs /\
  morning_file (fst (compare_stock_changes channel fs)) = morning_file fs /\
  (snapshot_file (fst (compare_stock_changes channel fs)) = snapshot_file fs \/
   snapshot_file (fst (compare_stock_changes channel fs)) = latest_file fs).
Proof.
  unfold compare_stock_changes.
  destruct (snapshot_file fs) as [prev|] eqn:Ep,
    (latest_file fs) as [cur|] eqn:Ec; cbn.
  - destruct (changes_loop prev cur (keys cur)) as [sent [e|]]; cbn; auto.
  - auto.
  - auto.
  - auto.
Qed.

(** What [send_leaderboard] does in each case. *)
Lemma send_leaderboard_cases (cfg : Config) (now : Now) (fs : Files) :
  send_leaderboard cfg now fs = (fs, []) \/
  send_leaderboard cfg now fs = (fs, [Print ErrorInSendLeaderboard]) \/
  exists data top,
    in_trading_hours now = true /\
    latest_file fs = Some data /\ top_ranked data = Ok top /\
    leaderboard_lookup cfg <> Misconfigured /\
    stocks_lookup cfg <> Misconfigured /\
    send_leaderboard cfg now fs =
    (match stocks_lookup cfg with
     | Found => fst (compare_stock_changes StocksChannel fs)
     | _ => fs
     end,
     match leaderboard_lookup cfg with
     | Found => [Sent LeaderboardChannel (LeaderboardUpdate top)]
     | _ => []
     end ++
     match stocks_lookup cfg with
     | Found => snd (compare_stock_changes StocksChannel fs)
     | _ => []
     end).
Proof.
  unfold send_leaderboard.
  destruct (in_trading_hours now); [|left; reflexivity].
  destruct (latest_file fs) as [data|] eqn:El; [|right; left; reflexivity].
  destruct (top_ranked data) as [top|e] eqn:Et; [|right; left; reflexivity].
  destruct (leaderboard_lookup cfg) eqn:E1, (stocks_lookup cfg) eqn:E2;
    try (right; left; reflexivity);
    right; right; exists data, top;
    (split; [reflexivity|]); (split; [reflexivity|]);
    (split; [exact Et|]); (split; [discriminate|]);
    (split; [discriminate|]); cbn;
    try destruct (compare_stock_changes StocksChannel fs) as [fs' changes];
    try rewrite app_nil_r; reflexivity.
Qed.

(** X23: [send_leaderboard] never changes the latest file or the morning
    file, and the snapshot file is afterwards what it was or a copy of the
    latest file; outside the trading hours of a weekday it sends nothing
    and leaves the files alone. *)
Theorem send_leaderboard_files (cfg : Config) (now : Now) (fs : Files) :
  latest_file (fst (send_leaderboard cfg now fs)) = latest_file fs /\
  morning_file (fst (send_leaderboard cfg now fs)) = morning_file fs /\
  (snapshot_file (fst (send_leaderboard cfg now fs)) = snapshot_file fs \/
   snapshot_file (fst (send_leaderboard cfg now fs)) = latest_file fs) /\
  ((5 <= weekday now)%nat \/ time_of_day now < hms 9 15 0 \/
   hms 16 15 0 < time_of_day now ->
   send_leaderboard cfg now fs = (fs, [])).
Proof.
  split; [|split; [|split]].
  1-3: destruct (send_leaderboard_cases cfg now fs)
         as [->|[->|(data & top & _ & _ & _ & _ & _ & ->)]];
       cbn [fst]; auto;
       destruct (stocks_lookup cfg); auto;
       apply compare_stock_changes_files.
  - intros Hout. unfold send_leaderboard.
    replace (in_trading_hours now) with false; [reflexivity|].
    symmetry. unfold in_trading_hours.
    destruct Hout as [H|[H|H]].
    + rewrite (proj2 (Nat.ltb_ge _ _) H). reflexivity.
    + rewrite (proj2 (Z.leb_gt _ _) H), andb_false_r. reflexivity.
    + rewrite (proj2 (Z.leb_gt _ _) H). apply andb_false_r.
Qed.

(** X24: when the identifier of either channel is missing from the
    environment, the task sends nothing to any channel, not even the update
    for the channel that is configured, and changes no file. *)
Theorem misconfigured_channel_silences_both (cfg : Config) (now : Now)
    (fs : Files) :
  leaderboard_lookup cfg = Misconfigured \/
  stocks_lookup cfg = Misconfigured ->
  fst (send_leaderboard cfg now fs) = fs /\
  forall ch m, ~ In (Sent ch m) (snd (send_leaderboard cfg now fs)).
Proof.
  intros Hmis.
  destruct (send_leaderboard_cases cfg now fs)
    as [->|[->|(data & top & _ & _ & _ & H1 & H2 & _)]].
  - split; [reflexivity|]. intros ch m [].
  - split; [reflexivity|]. intros ch m [[=]|[]].
  - destruct Hmis; contradiction.
Qed.

(** X25: every message of [send_leaderboard] goes to its own channel: the
    update, for the first user of the sorted latest file, to the leaderboard
    channel, and "Stock Changes" messages to the stocks channel; the text
    "Error comparing stock changes" is never sent from this task. *)
Theorem messages_go_to_their_channel (cfg : Config) (now : Now) (fs : Files)
    (ch : Channel) (m : Message) :
  In (Sent ch m) (snd (send_leaderboard cfg now fs)) ->
  (ch = LeaderboardChannel /\
   exists data top, latest_file fs = Some data /\ top_ranked data = Ok top /\
                    m = LeaderboardUpdate top) \/
  (ch = StocksChannel /\
   exists uname bought sold, m = StockChanges uname bought sold).
Proof.
  destruct (send_leaderboard_cases cfg now fs)
    as [->|[->|(data & top & _ & Hl & Ht & _ & _ & ->)]].
  - intros [].
  - intros [[=]|[]].
  - cbn [snd]. intros [Hin|Hin]%in_app_or.
    + destruct (leaderboard_lookup cfg); [destruct Hin|destruct Hin|].
      destruct Hin as [[= <- <-]|[]]. left. split; [reflexivity|].
      exists data, top. auto.
    + destruct (stocks_lookup cfg); [destruct Hin|destruct Hin|].
      rewrite (compare_stock_changes_eq StocksChannel fs data Hl) in Hin.
      cbn [snd] in Hin.
      destruct (snapshot_file fs) as [prev|]; [|destruct Hin].
      apply in_map_iff in Hin as (m' & [= <- <-] & Hm).
      apply in_flat_map in Hm as (u & _ & Hm).
      apply In_message_for in Hm as (p & c & _ & _ & _ & ->).
      right. split; [reflexivity|]. eauto.
Qed.

End SendLeaderboardFacts.

(** * The further properties on the worked inputs *)

Section MoreWorked.

Import Scenario Trading.
Local Open Scope string_scope.
#[local] Existing Instance decimal_builtins.

Lemma dict_get_In_pair (d : Snapshot) (k : string) (v : UserRecord) :
  dict_get d k = Some v -> In (k, v) d.
Proof.
  induction d as [|[k' v'] d IH]; cbn; [discriminate|].
  destruct (String.eqb_spec k' k) as [->|_].
  - intros [= ->]. left. reflexivity.
  - intros H. right. apply IH, H.
Qed.

Lemma finite_balances_of (A B : Snapshot) :
  Forall (fun kv => forall f, py_float (balance (snd kv)) = Ok f ->
                              PyFloat.is_finite f = true) (A ++ B)%list ->
  finite_balances A B.
Proof.
  rewrite List.Forall_forall. intros Hall u r f Hin Hf.
  apply (Hall (u, r)); [|exact Hf].
  apply in_or_app. destruct Hin as [H|H]; [left|right];
    apply dict_get_In_pair, H.
Qed.

Lemma scenario_finite : finite_balances baseline current.
Proof.
  apply finite_balances_of.
  repeat constructor; intros f Hf; vm_compute in Hf;
    injection Hf as <-; reflexivity.
Qed.

Lemma flat_day_finite : finite_balances flat_day flat_day.
Proof.
  apply finite_balances_of.
  repeat constructor; intros f Hf; vm_compute in Hf;
    injection Hf as <-; reflexivity.
Qed.

Lemma total_trades_is_sum_witness :
  exists s, calculate_daily_performance baseline current = Ok s /\
    total_trades s = 1%nat /\
    total_trades s = list_sum (map trades (performance s)).
Proof.
  eexists. split; [vm_compute; reflexivity|]. split; [reflexivity|].
  apply (total_trades_is_sum baseline current). vm_compute. reflexivity.
Defined.

Lemma most_active_top_three_witness :
  exists s, calculate_daily_performance baseline current = Ok s /\
    map username (most_active s) = ["alice"; "bob"] /\
    length (most_active s) = Nat.min 3 (length (performance s)) /\
    StronglySorted (fun a b => (trades b <= trades a)%nat) (most_active s) /\
    exists rest,
      Permutation (most_active s ++ rest) (performance s) /\
      forall a b, In a (most_active s) -> In b rest ->
                  (trades b <= trades a)%nat.
Proof.
  eexists. split; [vm_compute; reflexivity|]. split; [reflexivity|].
  apply (most_active_top_three baseline current). vm_compute. reflexivity.
Defined.

Lemma first_failure_wins_witness :
  calculate_daily_performance null_then_zero both_funded = Raise TypeError /\
  (forall e, py_float JNull = Raise e ->
             calculate_daily_performance null_then_zero both_funded = Raise e).
Proof.
  split; [reflexivity|].
  apply (first_failure_wins null_then_zero both_funded [] ["bob"] "alice"
           (user JNull []) (user (JInt 1) [])).
  - reflexivity.
  - intros u' p c [].
  - reflexivity.
  - reflexivity.
Defined.

Lemma unchanged_day_witness :
  exists s, calculate_daily_performance flat_day flat_day = Ok s /\
    map username (performance s) = ["alice"] /\
    Forall (fun r => PyFloat.is_zero (change_amount r) = true /\
                     PyFloat.is_zero (change_percent r) = true /\
                     trades r = 0%nat) (performance s) /\
    total_trades s = 0%nat /\
    biggest_gain s = sentinel /\ biggest_loss s = sentinel.
Proof.
  eexists. split; [vm_compute; reflexivity|]. split; [reflexivity|].
  apply (unchanged_day flat_day).
  - vm_compute. reflexivity.
  - exact flat_day_finite.
Defined.

Lemma change_percent_of_entry_witness :
  exists s r, calculate_daily_performance baseline current = Ok s /\
    In r (performance s) /\ username r = "alice" /\
    exists ra rb fa fb,
      dict_get baseline (username r) = Some ra /\
      dict_get current (username r) = Some rb /\
      py_float (balance ra) = Ok fa /\ py_float (balance rb) = Ok fb /\
      PyFloat.is_zero fa = false /\
      change_percent r =
        PyFloat.mul (PyFloat.div (change_amount r) fa) PyFloat.hundred.
Proof.
  eexists. eexists. split; [vm_compute; reflexivity|].
  split; [left; reflexivity|]. split; [reflexivity|].
  eapply (change_percent_of_entry baseline current).
  - vm_compute. reflexivity.
  - left. reflexivity.
Defined.

Lemma finite_balances_sorted_witness :
  exists s, calculate_daily_performance baseline current = Ok s /\
    map username (performance s) = ["alice"; "bob"] /\
    Forall (fun r => PyFloat.is_nan (change_percent r) = false)
           (performance s) /\
    StronglySorted not_below (performance s).
Proof.
  eexists. split; [vm_compute; reflexivity|]. split; [reflexivity|].
  apply (finite_balances_sorted baseline current).
  - vm_compute. reflexivity.
  - exact scenario_finite.
Defined.

Lemma snapshot_catches_up_witness :
  fst (compare_stock_changes StocksChannel first_run) =
    write_snapshot current first_run /\
  ~ In (Sent StocksChannel ErrorComparing)
       (snd (compare_stock_changes StocksChannel first_run)) /\
  (snapshot_file first_run = None ->
   snd (compare_stock_changes StocksChannel first_run) = []).
Proof.
  apply (snapshot_catches_up StocksChannel first_run current). reflexivity.
Defined.

Lemma compare_twice_witness :
  snapshot_file (fst (compare_stock_changes StocksChannel mid_day)) =
    Some current /\
  compare_stock_changes StocksChannel
    (fst (compare_stock_changes StocksChannel mid_day)) =
  (fst (compare_stock_changes StocksChannel mid_day), []).
Proof.
  split; [reflexivity|].
  apply (compare_twice StocksChannel mid_day current). reflexivity.
Defined.

Lemma who_gets_a_message_witness :
  In (Sent StocksChannel (StockChanges "alice" {[ "TSLA" ]} ∅))
     (snd (compare_stock_changes StocksChannel mid_day)) <->
  exists p c,
    dict_get baseline "alice" = Some p /\ dict_get current "alice" = Some c /\
    symbols (holdings c) <> symbols (holdings p) /\
    {[ "TSLA" ]} = symbols (holdings c) ∖ symbols (holdings p) /\
    ∅ = symbols (holdings p) ∖ symbols (holdings c).
Proof.
  apply (who_gets_a_message StocksChannel mid_day baseline current);
    reflexivity.
Defined.

Lemma messages_match_trades_witness :
  exists s r, calculate_daily_performance baseline current = Ok s /\
    In r (performance s) /\ username r = "alice" /\ trades r = 1%nat /\
    ((exists bought sold,
        In (Sent StocksChannel (StockChanges (username r) bought sold))
           (snd (compare_stock_changes StocksChannel mid_day))) <->
     trades r <> 0%nat) /\
    (forall bought sold,
       In (Sent StocksChannel (StockChanges (username r) bought sold))
          (snd (compare_stock_changes StocksChannel mid_day)) ->
       (size bought + size sold)%nat = trades r).
Proof.
  eexists. eexists. split; [vm_compute; reflexivity|].
  split; [left; reflexivity|]. split; [reflexivity|]. split; [reflexivity|].
  eapply (messages_match_trades StocksChannel mid_day baseline current).
  - reflexivity.
  - reflexivity.
  - vm_compute. reflexivity.
  - left. reflexivity.
Defined.

Lemma leaderboard_entries_are_users_witness :
  exists entries, leaderboard current 2 = Ok entries /\
    map (fun e => fst (fst e)) entries = ["bob"; "alice"] /\
    List.NoDup (map (fun e => fst (fst e)) entries) /\
    forall e, In e entries ->
      exists rec, dict_get current (fst (fst e)) = Some rec /\
                  e = shown (fst (fst e)) rec.
Proof.
  eexists. split; [vm_compute; reflexivity|]. split; [reflexivity|].
  apply (leaderboard_entries_are_users current 2).
  - repeat constructor; cbn; intuition discriminate.
  - vm_compute. reflexivity.
Defined.

Lemma top_ranked_is_first_witness :
  exists entries, leaderboard current 3 = Ok entries /\
    length entries = 3%nat /\
    exists top rest, entries = top :: rest /\ top_ranked current = Ok top.
Proof.
  eexists. split; [vm_compute; reflexivity|]. split; [reflexivity|].
  apply (top_ranked_is_first current 3). vm_compute. reflexivity.
Defined.

Lemma latest_file_is_newest_witness :
  get_latest_in_time_leaderboard listing =
    Some "./backend/leaderboards/in_time/b.json" /\
  exists name t pre,
    In (name, t) listing /\ name = pre ++ ".json" /\
    "./backend/leaderboards/in_time/b.json" = in_time_dir ++ "/" ++ name /\
    ((forall f, In f listing -> PyFloat.is_nan (snd f) = false) ->
     forall name' t' pre', In (name', t') listing -> name' = pre' ++ ".json" ->
       PyFloat.ltb t t' = false).
Proof.
  split; [vm_compute; reflexivity|].
  apply (latest_file_is_newest listing). vm_compute. reflexivity.
Defined.

Lemma few_users_top_and_bottom_witness :
  exists fields,
    In (Sent LeaderboardChannel (EndOfDaySummary fields))
       (send_daily_summary configured monday_close mid_day) /\
    exists ps,
      In (TopPerformers ps) fields /\ In (NeedsImprovement ps) fields /\
      Permutation (map username ps) (compared baseline current).
Proof.
  eexists. split; [vm_compute; left; reflexivity|].
  apply (few_users_top_and_bottom configured monday_close mid_day
           baseline current LeaderboardChannel).
  - reflexivity.
  - reflexivity.
  - cbn. lia.
  - vm_compute. left. reflexivity.
Defined.

Lemma biggest_move_fields_witness :
  exists stats fields,
    calculate_daily_performance baseline current = Ok stats /\
    In (Sent LeaderboardChannel (EndOfDaySummary fields))
       (send_daily_summary configured monday_close mid_day) /\
    (forall x, In (BiggestGain x) fields ->
       exists r, In r (performance stats) /\ x = extreme_of r /\
         username r <> "" /\
         PyFloat.ltb PyFloat.zero (change_percent r) = true /\
         forall r', In r' (performance stats) ->
           PyFloat.ltb (change_percent r) (change_percent r') = false) /\
    (forall x, In (BiggestLoss x) fields ->
       exists r, In r (performance stats) /\ x = extreme_of r /\
         username r <> "" /\
         PyFloat.ltb (change_percent r) PyFloat.zero = true /\
         forall r', In r' (performance stats) ->
           PyFloat.ltb (change_percent r') (change_percent r) = false) /\
    (dict_get current "" = None ->
     (exists r, In r (performance stats) /\
                PyFloat.ltb PyFloat.zero (change_percent r) = true) ->
     exists x, In (BiggestGain x) fields) /\
    (dict_get current "" = None ->
     (exists r, In r (performance stats) /\
                PyFloat.ltb (change_percent r) PyFloat.zero = true) ->
     exists x, In (BiggestLoss x) fields).
Proof.
  eexists. eexists. split; [vm_compute; reflexivity|].
  split; [vm_compute; left; reflexivity|].
  apply (biggest_move_fields configured monday_close mid_day
           baseline current _ LeaderboardChannel).
  - reflexivity.
  - reflexivity.
  - vm_compute. reflexivity.
  - vm_compute. left. reflexivity.
Defined.

Lemma summary_right_after_morning_witness :
  exists fields,
    In (Sent LeaderboardChannel (EndOfDaySummary fields))
       (send_daily_summary configured monday_close
          (fst (start_of_day monday_open quiet_day))) /\
    In (MarketActivity 0) fields /\
    (forall x, ~ In (BiggestGain x) fields) /\
    (forall x, ~ In (BiggestLoss x) fields).
Proof.
  eexists. split; [vm_compute; left; reflexivity|].
  apply (summary_right_after_morning configured monday_open monday_close
           quiet_day flat_day LeaderboardChannel).
  - reflexivity.
  - cbn. lia.
  - exact flat_day_finite.
  - vm_compute. left. reflexivity.
Defined.

Lemma misconfigured_channel_silences_both_witness :
  in_trading_hours monday_noon = true /\
  fst (send_leaderboard no_stocks_id monday_noon mid_day) = mid_day /\
  forall ch m,
    ~ In (Sent ch m) (snd (send_leaderboard no_stocks_id monday_noon mid_day)).
Proof.
  split; [reflexivity|].
  apply (misconfigured_channel_silences_both no_stocks_id monday_noon mid_day).
  right. reflexivity.
Defined.

Lemma messages_go_to_their_channel_witness :
  exists top,
    In (Sent LeaderboardChannel (LeaderboardUpdate top))
       (snd (send_leaderboard configured monday_noon mid_day)) /\
    ((LeaderboardChannel = LeaderboardChannel /\
      exists data top', latest_file mid_day = Some data /\
                        top_ranked data = Ok top' /\
                        LeaderboardUpdate top = LeaderboardUpdate top') \/
     (LeaderboardChannel = StocksChannel /\
      exists uname bought sold,
        LeaderboardUpdate top = StockChanges uname bought sold)).
Proof.
  eexists. split; [vm_compute; left; reflexivity|].
  apply (messages_go_to_their_channel configured monday_noon mid_day).
  vm_compute. left. reflexivity.
Defined.

End MoreWorked.
